(** * bb-moedas: exchange-rate collector (script.py)

    A shallow embedding of [script.py] and the properties of its
    pipeline: argument resolution, series fetch, row normalisation,
    tabular transform and export.

    Conventions of the embedding.
    - A Python [str] is a Rocq [string]; texts are taken to be ASCII,
      and the character tables (whitespace, case, digits) are those of
      ASCII.
    - A Python [float] is a binary64 value, [spec_float] with
      precision 53 and maximal exponent 1024; a missing cell of a
      float column is NaN, as in pandas.
    - A [datetime.date] of the window is its proleptic Gregorian
      ordinal; a parsed date of the table is its year, month and day.
    - [main] runs in a state-and-exception monad over a [world]: the
      clock, the HTTP endpoint and the file system answer the calls of
      the program, and every call is recorded in a trace. *)

From Stdlib Require Import ZArith String Ascii List Bool Lia.
From Stdlib Require Import Sorting.Sorted Sorting.Permutation.
From Stdlib Require Import Floats.SpecFloat.
From Stdlib Require Import Numbers.DecimalString Numbers.DecimalZ.
From stdpp Require Import base option list gmap strings.

Local Open Scope string_scope.
Local Open Scope Z_scope.

(* ===================================================================== *)
(** * Python strings *)
(* ===================================================================== *)

Module PyStr.

(** [str.isspace] on ASCII: TAB..CR, FS..US and the space. *)
Definition isspace (c : ascii) : bool :=
  let n := nat_of_ascii c in
  ((9 <=? n)%nat && (n <=? 13)%nat) || ((28 <=? n)%nat && (n <=? 32)%nat).

Definition islower (c : ascii) : bool :=
  let n := nat_of_ascii c in (97 <=? n)%nat && (n <=? 122)%nat.

Definition toupper (c : ascii) : ascii :=
  if islower c then ascii_of_nat (nat_of_ascii c - 32) else c.

(** [s.upper()] *)
Fixpoint upper (s : string) : string :=
  match s with
  | EmptyString => EmptyString
  | String c s' => String (toupper c) (upper s')
  end.

(** [s.lstrip()] *)
Fixpoint lstrip (s : string) : string :=
  match s with
  | EmptyString => EmptyString
  | String c s' => if isspace c then lstrip s' else s
  end.

(** [s.rstrip()]: a character is dropped when it is a space and all
    that follows it was dropped. *)
Fixpoint rstrip (s : string) : string :=
  match s with
  | EmptyString => EmptyString
  | String c s' =>
      match rstrip s' with
      | EmptyString => if isspace c then EmptyString else String c EmptyString
      | t => String c t
      end
  end.

(** [s.strip()] *)
Definition strip (s : string) : string := rstrip (lstrip s).

(** [s.split(sep)] for a one-character separator: always at least one
    segment, empty segments kept. *)
Fixpoint split (sep : ascii) (s : string) : list string :=
  match s with
  | EmptyString => [EmptyString]
  | String c s' =>
      if Ascii.eqb c sep then EmptyString :: split sep s'
      else match split sep s' with
           | seg :: rest => String c seg :: rest
           | [] => [String c EmptyString]
           end
  end.

(** [sep.join(l)] *)
Fixpoint join (sep : string) (l : list string) : string :=
  match l with
  | [] => EmptyString
  | [x] => x
  | x :: rest => x +:+ sep +:+ join sep rest
  end.

(** [s.replace(old, new)] for a non-empty [old]: occurrences are found
    left to right and do not overlap. [skip] counts the characters of
    a matched occurrence still to be passed over. *)
Fixpoint replace_from (old new : string) (skip : nat) (s : string) : string :=
  match s with
  | EmptyString => EmptyString
  | String c s' =>
      match skip with
      | S k => replace_from old new k s'
      | O =>
          if String.prefix old s
          then new +:+ replace_from old new (String.length old - 1) s'
          else String c (replace_from old new 0 s')
      end
  end.

Definition replace (old new s : string) : string :=
  match old with
  | EmptyString => s
  | _ => replace_from old new 0 s
  end.

(** Truth value of a string in a condition: non-empty. *)
Definition truthy (s : string) : bool :=
  match s with EmptyString => false | _ => true end.

End PyStr.

(* ===================================================================== *)
(** * Python floats *)
(* ===================================================================== *)

Module PyFloat.

Definition prec : Z := 53.
Definition emax : Z := 1024.

Definition nan : spec_float := S754_nan.
Definition fdiv : spec_float -> spec_float -> spec_float := SFdiv prec emax.
Definition fsub : spec_float -> spec_float -> spec_float := SFsub prec emax.
Definition fmul : spec_float -> spec_float -> spec_float := SFmul prec emax.

(** An integer as a float, correctly rounded. *)
Definition of_Z (n : Z) : spec_float := binary_normalize prec emax n 0 false.

Definition is_nan (x : spec_float) : bool :=
  match x with S754_nan => true | _ => false end.

Definition is_zero (x : spec_float) : bool :=
  match x with S754_zero _ => true | _ => false end.

Definition is_inf (x : spec_float) : bool :=
  match x with S754_infinity _ => true | _ => false end.

(** The float nearest to [(-1)^neg * n * 10^k], ties to even:
    an exact integer is rounded once, a quotient is rounded by the
    division of the two exact integers. *)
Definition of_decimal (neg : bool) (n k : Z) : spec_float :=
  match n with
  | Zpos p =>
      if 0 <=? k
      then binary_normalize prec emax (cond_Zopp neg (n * 10 ^ k)) 0 neg
      else SFdiv prec emax (S754_finite neg p 0)
                           (S754_finite false (Z.to_pos (10 ^ (- k))) 0)
  | _ => S754_zero neg
  end.

(** Py_ISSPACE, the whitespace [float] strips from an ASCII string. *)
Definition c_isspace (c : ascii) : bool :=
  let n := nat_of_ascii c in
  ((9 <=? n)%nat && (n <=? 13)%nat) || (n =? 32)%nat.

Definition digit_of (c : ascii) : option Z :=
  let n := nat_of_ascii c in
  if (48 <=? n)%nat && (n <=? 57)%nat then Some (Z.of_nat n - 48) else None.

Definition is_digit (c : ascii) : bool :=
  match digit_of c with Some _ => true | None => false end.

(** Underscores are allowed between two digits only; they are removed
    before the number is read. [prev] is the previous character. *)
Fixpoint strip_underscores (prev : option ascii) (s : string) : option string :=
  match s with
  | EmptyString =>
      match prev with
      | Some "_"%char => None
      | _ => Some EmptyString
      end
  | String c s' =>
      if Ascii.eqb c "_" then
        match prev with
        | Some p => if is_digit p then strip_underscores (Some c) s' else None
        | None => None
        end
      else
        match prev with
        | Some "_"%char =>
            if is_digit c
            then option_map (String c) (strip_underscores (Some c) s')
            else None
        | _ => option_map (String c) (strip_underscores (Some c) s')
        end
  end.

Fixpoint lstrip (s : string) : string :=
  match s with
  | EmptyString => EmptyString
  | String c s' => if c_isspace c then lstrip s' else s
  end.

Fixpoint rstrip (s : string) : string :=
  match s with
  | EmptyString => EmptyString
  | String c s' =>
      match rstrip s' with
      | EmptyString => if c_isspace c then EmptyString else String c EmptyString
      | t => String c t
      end
  end.

(** A run of digits: the number read so far, how many digits were
    read, and what follows. *)
Fixpoint read_digits (s : string) (acc : Z) (cnt : nat) : Z * nat * string :=
  match s with
  | EmptyString => (acc, cnt, EmptyString)
  | String c s' =>
      match digit_of c with
      | Some d => read_digits s' (acc * 10 + d) (S cnt)
      | None => (acc, cnt, s)
      end
  end.

Definition read_sign (s : string) : bool * string :=
  match s with
  | String "-" s' => (true, s')
  | String "+" s' => (false, s')
  | _ => (false, s)
  end.

(** [digits [. digits] [(e|E) [sign] digits]] up to the end of the
    string, with a digit in the mantissa and, after an exponent
    mark, a digit in the exponent: the mantissa as an integer and the
    power of ten that scales it. *)
Definition read_decimal (s : string) : option (Z * Z) :=
  let '(n1, c1, r1) := read_digits s 0 0 in
  let '(n2, c2, r2) :=
    match r1 with
    | String "." r => read_digits r n1 0
    | _ => (n1, O, r1)
    end in
  if (c1 + c2 =? 0)%nat then None
  else
    match r2 with
    | EmptyString => Some (n2, - Z.of_nat c2)
    | String c r3 =>
        if Ascii.eqb c "e" || Ascii.eqb c "E" then
          let '(eneg, r4) := read_sign r3 in
          let '(x, c3, r5) := read_digits r4 0 0 in
          match c3, r5 with
          | S _, EmptyString => Some (n2, cond_Zopp eneg x - Z.of_nat c2)
          | _, _ => None
          end
        else None
    end.

(** [float(s)] for a string [s]; [None] is [ValueError]. *)
Definition float (s : string) : option spec_float :=
  match strip_underscores None s with
  | None => None
  | Some t =>
      let '(neg, body) := read_sign (rstrip (lstrip t)) in
      let word := PyStr.upper body in
      if String.eqb word "INF" || String.eqb word "INFINITY"
      then Some (S754_infinity neg)
      else if String.eqb word "NAN" then Some S754_nan
      else
        match read_decimal body with
        | Some (n, k) => Some (of_decimal neg n k)
        | None => None
        end
  end.

End PyFloat.

(* ===================================================================== *)
(** * Dates *)
(* ===================================================================== *)

Module PyDate.

(** [date.min.toordinal()] and [date.max.toordinal()]. *)
Definition MINORD : Z := 1.
Definition MAXORD : Z := 3652059.

(** The largest magnitude of [timedelta(days=...)]. *)
Definition MAX_DELTA_DAYS : Z := 999999999.

(** [d - timedelta(days=n)] on ordinals; [None] is [OverflowError],
    raised by the [timedelta] constructor or by the subtraction. *)
Definition sub_days (d n : Z) : option Z :=
  if MAX_DELTA_DAYS <? Z.abs n then None
  else
    let r := d - n in
    if (MINORD <=? r) && (r <=? MAXORD) then Some r else None.

(** A parsed calendar date. *)
Record ymd := Ymd { year : Z; month : Z; day : Z }.

Definition is_leap (y : Z) : bool :=
  ((y mod 4 =? 0) && negb (y mod 100 =? 0)) || (y mod 400 =? 0).

Definition days_in_month (y m : Z) : Z :=
  if m =? 2 then (if is_leap y then 29 else 28)
  else if (m =? 4) || (m =? 6) || (m =? 9) || (m =? 11) then 30
  else 31.

Definition valid (d : ymd) : bool :=
  (1 <=? year d) && (year d <=? 9999)
  && (1 <=? month d) && (month d <=? 12)
  && (1 <=? day d) && (day d <=? days_in_month (year d) (month d)).

(** The directive [%d]: [3[0-1]|[1-2]\d|0[1-9]|[1-9]| [1-9]]. *)
Definition day_of_two (a b : ascii) : option Z :=
  match PyFloat.digit_of a, PyFloat.digit_of b with
  | Some x, Some y =>
      if x =? 3 then (if y <=? 1 then Some (30 + y) else None)
      else if (x =? 1) || (x =? 2) then Some (10 * x + y)
      else if (x =? 0) && (1 <=? y) then Some y
      else None
  | None, Some y =>
      if Ascii.eqb a " " && (1 <=? y) then Some y else None
  | _, _ => None
  end.

(** The directive [%m]: [1[0-2]|0[1-9]|[1-9]]. *)
Definition month_of_two (a b : ascii) : option Z :=
  match PyFloat.digit_of a, PyFloat.digit_of b with
  | Some x, Some y =>
      if x =? 1 then (if y <=? 2 then Some (10 + y) else None)
      else if (x =? 0) && (1 <=? y) then Some y
      else None
  | _, _ => None
  end.

Definition of_one (a : ascii) : option Z :=
  match PyFloat.digit_of a with
  | Some x => if 1 <=? x then Some x else None
  | None => None
  end.

(** A one- or two-character field closed by the separator [/]. *)
Definition read_field (two : ascii -> ascii -> option Z) (s : string)
  : option (Z * string) :=
  match s with
  | String a (String "/" r) => option_map (fun v => (v, r)) (of_one a)
  | String a (String b (String "/" r)) => option_map (fun v => (v, r)) (two a b)
  | _ => None
  end.

(** The directive [%Y]: four digits, here up to the end of the text. *)
Definition read_year (s : string) : option Z :=
  match s with
  | String a (String b (String c (String d EmptyString))) =>
      match PyFloat.digit_of a, PyFloat.digit_of b,
            PyFloat.digit_of c, PyFloat.digit_of d with
      | Some x, Some y, Some z, Some w => Some (1000 * x + 100 * y + 10 * z + w)
      | _, _, _, _ => None
      end
  | _ => None
  end.

(** The text read under the format [%d/%m/%Y], all of it, as a
    calendar date that exists. *)
Definition strptime_dmy (s : string) : option ymd :=
  match read_field day_of_two s with
  | Some (d, r1) =>
      match read_field month_of_two r1 with
      | Some (m, r2) =>
          match read_year r2 with
          | Some y => let r := Ymd y m d in if valid r then Some r else None
          | None => None
          end
      | None => None
      end
  | None => None
  end.

Definition compare (a b : ymd) : comparison :=
  match year a ?= year b with
  | Eq => match month a ?= month b with
          | Eq => day a ?= day b
          | c => c
          end
  | c => c
  end.

End PyDate.

(* ===================================================================== *)
(** * Paths *)
(* ===================================================================== *)

Module PosixPath.

Definition sep : ascii := "/".

Fixpoint has_sep (s : string) : bool :=
  match s with
  | EmptyString => false
  | String c s' => Ascii.eqb c sep || has_sep s'
  end.

(** [p[:p.rfind('/') + 1]] *)
Fixpoint head (p : string) : string :=
  match p with
  | EmptyString => EmptyString
  | String c s' =>
      if has_sep s' then String c (head s')
      else if Ascii.eqb c sep then String c EmptyString
      else EmptyString
  end.

Fixpoint all_sep (s : string) : bool :=
  match s with
  | EmptyString => true
  | String c s' => Ascii.eqb c sep && all_sep s'
  end.

(** [s.rstrip('/')] *)
Fixpoint rstrip_sep (s : string) : string :=
  match s with
  | EmptyString => EmptyString
  | String c s' =>
      match rstrip_sep s' with
      | EmptyString => if Ascii.eqb c sep then EmptyString else String c EmptyString
      | t => String c t
      end
  end.

(** [os.path.dirname(p)] *)
Definition dirname (p : string) : string :=
  let h := head p in
  if PyStr.truthy h && negb (all_sep h) then rstrip_sep h else h.

End PosixPath.

(* ===================================================================== *)
(** * The program *)
(* ===================================================================== *)

(** [SGS_SERIES]: a dict literal, in insertion order. *)
Definition SGS_SERIES : list (string * Z) :=
  [ ("USD", 10813); ("EUR", 21619); ("GBP", 21623);
    ("JPY", 21621); ("ARS", 3549); ("CHF", 21625) ].

(** [SGS_SERIES[k]] ([None] is [KeyError]), [k in SGS_SERIES] and
    [list(SGS_SERIES.keys())]. *)
Fixpoint dict_get (d : list (string * Z)) (k : string) : option Z :=
  match d with
  | [] => None
  | (k', v) :: rest => if String.eqb k' k then Some v else dict_get rest k
  end.

Definition dict_mem (d : list (string * Z)) (k : string) : bool :=
  match dict_get d k with Some _ => true | None => false end.

Definition dict_keys (d : list (string * Z)) : list string := map fst d.

(** ** Data *)

(** One element of the JSON list of the endpoint, read through
    [item.get]: a field is [None] when the key is missing or null;
    [valor] is held as [str(val)], [data] is a string. *)
Record item := Item { data : option string; valor : option string }.

(** The dict appended to [rows]. *)
Record raw_row := RawRow {
  raw_date : string;
  raw_currency : string;
  raw_value : spec_float
}.

(** A row of the frame once [date] is parsed. *)
Record dated_row := DatedRow {
  d_date : PyDate.ymd;
  d_currency : string;
  d_value : spec_float
}.

(** A row of the final frame. An absent [prev_value] or
    [pct_change_day] is NaN. *)
Record quote := Quote {
  date : PyDate.ymd;
  currency : string;
  value_brl : spec_float;
  prev_value : spec_float;
  pct_change_day : spec_float
}.

(** A frame: the column labels in order, and the rows. *)
Record frame := Frame { columns : list string; body : list quote }.

(** What [parse_args] returns. *)
Record args := Args {
  moedas : string;
  days : option Z;
  years : Z;
  out : string;
  excel : bool
}.

(** The command line: each option given or not. *)
Record argv := Argv {
  opt_moedas : option string;
  opt_days : option Z;
  opt_years : option Z;
  opt_out : option string;
  opt_excel : bool
}.

Definition parse_args (c : argv) : args :=
  {| moedas := default "USD,EUR,GBP,JPY" (opt_moedas c);
     days := opt_days c;
     years := default 2 (opt_years c);
     out := default "data/cotacoes.csv" (opt_out c);
     excel := opt_excel c |}.

(** ** Effects *)

Inductive message :=
| MoedasInvalidas (invalidas validas : list string)
| NenhumDado
| Ok (linhas : nat) (arquivo : string).

Inductive exn :=
| SystemExit (code : Z)
| OverflowError
| RuntimeError (codigo : Z)
| ValueError
| KeyError
| FileNotFoundError
| OSError.

(** The calls the program makes to its surroundings, as they happen. *)
Inductive event :=
| Today
| Get (codigo start end_ : Z)
| Print (m : message)
| Makedirs (path : string)
| ToCsv (path encoding : string) (df : frame)
| ToExcel (path : string) (df : frame).

(** What [requests.get] followed by [raise_for_status] and [json]
    gives: a transport failure, a JSON value that is not a list, or
    the list. *)
Inductive response :=
| Failed
| NotAList
| Json (items : list item).

(** The surroundings of a run. Each answer may depend on the calls made
    so far. [timestamp_ok] is the range of dates the installed pandas
    represents. [mkdir_ok] and [write_ok] say whether the call goes
    through; a refusal is rendered as [OSError], whatever its class. *)
Record world := World {
  clock : list event -> Z;
  http : list event -> Z -> Z -> Z -> response;
  timestamp_ok : PyDate.ymd -> bool;
  mkdir_ok : list event -> string -> bool;
  write_ok : list event -> string -> bool
}.

(** Computations: read the world, extend the trace, return or raise. *)
Definition M (A : Type) : Type := world -> list event -> (A + exn) * list event.

Definition ret {A} (a : A) : M A := fun _ tr => (inl a, tr).

Definition raise {A} (e : exn) : M A := fun _ tr => (inr e, tr).

Definition bind {A B} (m : M A) (k : A -> M B) : M B :=
  fun w tr =>
    match m w tr with
    | (inl a, tr') => k a w tr'
    | (inr e, tr') => (inr e, tr')
    end.

Definition emit (e : event) : M unit := fun _ tr => (inl tt, (tr ++ [e])%list).

Definition ask {A} (f : world -> list event -> A) : M A :=
  fun w tr => (inl (f w tr), tr).

Declare Scope py_scope.
Delimit Scope py_scope with py.
Notation "x <- m ;; k" := (bind m (fun x => k))
  (at level 100, m at next level, right associativity) : py_scope.
Notation "m ;; k" := (bind m (fun _ => k))
  (at level 100, right associativity) : py_scope.
Local Open Scope py_scope.

Definition print (m : message) : M unit := emit (Print m).

Definition sys_exit {A} (code : Z) : M A := raise (SystemExit code).

(** [date.today()] *)
Definition date_today : M Z :=
  d <- ask clock ;; emit Today ;; ret d.

(** A value of [option] whose [None] raises. *)
Definition or_raise {A} (e : exn) (o : option A) : M A :=
  match o with Some a => ret a | None => raise e end.

(** [fetch_sgs(codigo, start, end)] *)
Definition fetch_sgs (codigo start end_ : Z) : M (list item) :=
  r <- ask (fun w tr => http w tr codigo start end_) ;;
  emit (Get codigo start end_) ;;
  match r with
  | Failed => raise (RuntimeError codigo)
  | NotAList => raise ValueError
  | Json items => ret items
  end.

(** [os.makedirs(path, exist_ok=True)]: the empty path names no
    directory, whatever the file system holds. *)
Definition os_makedirs (path : string) : M unit :=
  match path with
  | EmptyString => raise FileNotFoundError
  | _ =>
      good <- ask (fun w tr => mkdir_ok w tr path) ;;
      emit (Makedirs path) ;;
      if good then ret tt else raise OSError
  end.

(** [df.to_csv(path, index=False, encoding=...)] *)
Definition to_csv (df : frame) (path encoding : string) : M unit :=
  good <- ask (fun w tr => write_ok w tr path) ;;
  if good then emit (ToCsv path encoding df) else raise OSError.

(** [df.to_excel(path, index=False)] *)
Definition to_excel (df : frame) (path : string) : M unit :=
  good <- ask (fun w tr => write_ok w tr path) ;;
  if good then emit (ToExcel path df) else raise OSError.

(** ** Argument resolution *)

(** [[m.strip().upper() for m in s.split(",") if m.strip()]] *)
Definition resolve_moedas (s : string) : list string :=
  map (fun m => PyStr.upper (PyStr.strip m))
      (List.filter (fun m => PyStr.truthy (PyStr.strip m)) (PyStr.split "," s)).

(** [[m for m in moedas if m not in SGS_SERIES]] *)
Definition invalidas_of (ms : list string) : list string :=
  List.filter (fun m => negb (dict_mem SGS_SERIES m)) ms.

(** ** Row normaliser *)

(** The body of the loop over [data]: one item, appended or skipped. *)
Definition normalize_item (moeda : string) (rows : list raw_row) (it : item)
  : list raw_row :=
  match data it, valor it with
  | Some dt, Some val =>
      match PyFloat.float (PyStr.replace "," "." val) with
      | Some val_f => (rows ++ [RawRow dt moeda val_f])%list
      | None => rows
      end
  | _, _ => rows
  end.

Definition normalize (moeda : string) (items : list item) (rows : list raw_row)
  : list raw_row :=
  fold_left (normalize_item moeda) items rows.

(** The loop over [moedas]. *)
Fixpoint fetch_all (ms : list string) (start end_ : Z) (rows : list raw_row)
  : M (list raw_row) :=
  match ms with
  | [] => ret rows
  | moeda :: rest =>
      codigo <- or_raise KeyError (dict_get SGS_SERIES moeda) ;;
      items <- fetch_sgs codigo start end_ ;;
      fetch_all rest start end_ (normalize moeda items rows)
  end.

(** ** Transform *)

(** [pd.to_datetime(..., format="%d/%m/%Y", errors="coerce")] on one
    cell: [None] is NaT. *)
Definition to_datetime (ok : PyDate.ymd -> bool) (s : string) : option PyDate.ymd :=
  match PyDate.strptime_dmy s with
  | Some d => if ok d then Some d else None
  | None => None
  end.

(** [to_datetime] on the column, then [dropna(subset=["date"])]. *)
Definition parse_dates (ok : PyDate.ymd -> bool) (rows : list raw_row)
  : list dated_row :=
  omap (fun r => option_map (fun d => DatedRow d (raw_currency r) (raw_value r))
                            (to_datetime ok (raw_date r)))
       rows.

(** The order of [sort_values(["currency", "date"])]. *)
Definition key_leb (a b : dated_row) : bool :=
  match String.compare (d_currency a) (d_currency b) with
  | Lt => true
  | Gt => false
  | Eq => match PyDate.compare (d_date a) (d_date b) with
          | Gt => false
          | _ => true
          end
  end.

Fixpoint insert_row (r : dated_row) (l : list dated_row) : list dated_row :=
  match l with
  | [] => [r]
  | x :: l' => if key_leb r x then r :: l else x :: insert_row r l'
  end.

(** The sort is stable: rows of equal key keep their order. *)
Definition sort_values (l : list dated_row) : list dated_row :=
  foldr insert_row [] l.

(** [groupby("currency")["value_brl"].shift(1)]: in row order, each row
    takes the value last seen for its currency, NaN when there is
    none. *)
Fixpoint shift_from (seen : gmap string spec_float) (l : list dated_row)
  : list spec_float :=
  match l with
  | [] => []
  | r :: l' =>
      default PyFloat.nan (seen !! d_currency r)
      :: shift_from (<[d_currency r := d_value r]> seen) l'
  end.

Definition groupby_shift (l : list dated_row) : list spec_float :=
  shift_from ∅ l.

(** [(value_brl / prev_value - 1) * 100] *)
Definition pct_change (value prev : spec_float) : spec_float :=
  PyFloat.fmul (PyFloat.fsub (PyFloat.fdiv value prev) (PyFloat.of_Z 1))
               (PyFloat.of_Z 100).

Definition with_deltas (r : dated_row) (prev : spec_float) : quote :=
  {| date := d_date r;
     currency := d_currency r;
     value_brl := d_value r;
     prev_value := prev;
     pct_change_day := pct_change (d_value r) prev |}.

Definition COLUMNS : list string :=
  ["date"; "currency"; "value_brl"; "prev_value"; "pct_change_day"].

(** Lines 91 to 98: from [rows] to the final frame. *)
Definition build_frame (ok : PyDate.ymd -> bool) (rows : list raw_row) : frame :=
  let df := sort_values (parse_dates ok rows) in
  {| columns := COLUMNS;
     body := zip_with with_deltas df (groupby_shift df) |}.

(** ** main *)

(** Lines 62 to 65: the start of the window that ends at [end_];
    [None] is [OverflowError]. *)
Definition window_start (a : args) (end_ : Z) : option Z :=
  match days a with
  | Some d => PyDate.sub_days end_ d
  | None => PyDate.sub_days end_ (365 * years a)
  end.

(** Lines 55 to 85: resolution, validation, window, fetch. *)
Definition collect (a : args) : M (list raw_row) :=
  let ms := resolve_moedas (moedas a) in
  let invalidas := invalidas_of ms in
  (match invalidas with
   | [] => ret tt
   | _ => print (MoedasInvalidas invalidas (dict_keys SGS_SERIES)) ;; sys_exit 1
   end) ;;
  end_ <- date_today ;;
  start <- or_raise OverflowError (window_start a end_) ;;
  fetch_all ms start end_ [].

(** [str.replace] on the output path. *)
Definition xlsx_path (out_ : string) : string :=
  PyStr.replace ".csv" ".xlsx" out_.

(** Lines 87 to 107: guard, transform, export. *)
Definition export (a : args) (rows : list raw_row) : M unit :=
  (match rows with
   | [] => print NenhumDado ;; sys_exit 2
   | _ => ret tt
   end) ;;
  ok <- ask (fun w _ => timestamp_ok w) ;;
  let df := build_frame ok rows in
  os_makedirs (PosixPath.dirname (out a)) ;;
  to_csv df (out a) "utf-8" ;;
  (if excel a then to_excel df (xlsx_path (out a)) else ret tt) ;;
  print (Ok (length (body df)) (out a)).

Definition main (c : argv) : M unit :=
  let a := parse_args c in
  rows <- collect a ;;
  export a rows.

(** A run from the empty trace, and the exit status of the process:
    0 on return, the code of [sys.exit], 1 on any other exception. *)
Definition run (c : argv) (w : world) : (unit + exn) * list event := main c w [].

Definition exit_status {A} (r : A + exn) : Z :=
  match r with
  | inl _ => 0
  | inr (SystemExit code) => code
  | inr _ => 1
  end.

Definition is_write (e : event) : bool :=
  match e with
  | Makedirs _ | ToCsv _ _ _ | ToExcel _ _ => true
  | _ => false
  end.

Definition is_get (e : event) : bool :=
  match e with Get _ _ _ => true | _ => false end.

Definition is_today (e : event) : bool :=
  match e with Today => true | _ => false end.

(* ===================================================================== *)
(** * Vocabulary of the statements *)
(* ===================================================================== *)

Fixpoint all_chars (p : ascii -> bool) (s : string) : bool :=
  match s with
  | EmptyString => true
  | String c s' => p c && all_chars p s'
  end.

Fixpoint map_chars (f : ascii -> ascii) (s : string) : string :=
  match s with
  | EmptyString => EmptyString
  | String c s' => String (f c) (map_chars f s')
  end.

Definition first_char (s : string) : option ascii :=
  match s with
  | EmptyString => None
  | String c _ => Some c
  end.

Fixpoint last_char (s : string) : option ascii :=
  match s with
  | EmptyString => None
  | String c s' => match last_char s' with Some d => Some d | None => Some c end
  end.

Definition not_space (o : option ascii) : Prop :=
  match o with
  | Some c => PyStr.isspace c = false
  | None => True
  end.

(** [t] is [s] without its surrounding whitespace. *)
Definition trimmed (s t : string) : Prop :=
  exists pre suf,
    s = pre +:+ t +:+ suf
    /\ all_chars PyStr.isspace pre = true
    /\ all_chars PyStr.isspace suf = true
    /\ not_space (first_char t)
    /\ not_space (last_char t).

(** A segment of the currency list as the resolver reads it: nothing
    for a blank segment, else the segment trimmed and in upper case. *)
Definition code_of_segment (seg : string) : option string :=
  match PyStr.strip seg with
  | EmptyString => None
  | t => Some (PyStr.upper t)
  end.

(** The decimal comma of a value turned into a period. *)
Definition comma_to_period (s : string) : string :=
  map_chars (fun c => if Ascii.eqb c "," then "."%char else c) s.

(** What the normaliser makes of one record, after the words of the
    specification: nothing when a field is missing or the value is not
    a number, else one row. *)
Definition row_of_item (moeda : string) (it : item) : list raw_row :=
  match data it, valor it with
  | Some dt, Some val =>
      match PyFloat.float (comma_to_period val) with
      | Some x => [RawRow dt moeda x]
      | None => []
      end
  | _, _ => []
  end.


(** The path with its final [.csv] replaced by [.xlsx], after the
    words of the specification; [None] when the path has no such
    extension. *)
Fixpoint swap_extension (p : string) : option string :=
  match p with
  | EmptyString => None
  | String c p' =>
      if String.eqb p ".csv" then Some ".xlsx"
      else option_map (String c) (swap_extension p')
  end.

(** A code is valid when it is a key of [SGS_SERIES]. *)
Definition valid_code (m : string) : Prop := In m (dict_keys SGS_SERIES).

(** The days the window spans. *)
Definition window_days (a : args) : Z :=
  match days a with
  | Some d => d
  | None => 365 * years a
  end.

(** The order of the sort, as a relation, and its first component. *)
Definition key_le (a b : dated_row) : Prop := key_leb a b = true.

Definition currency_le (a b : dated_row) : Prop :=
  String.compare (d_currency a) (d_currency b) <> Gt.

(** The row of the frame without its two computed columns. *)
Definition undelta (q : quote) : dated_row :=
  DatedRow (date q) (currency q) (value_brl q).

(** The value of the last row of [l] whose currency is [c]. *)
Definition last_of_currency (c : string) (l : list dated_row) : option spec_float :=
  option_map d_value (last (List.filter (fun p => String.eqb (d_currency p) c) l)).

(** The outcomes of lines 87 to 107 on the rows [rows]: how the export
    ends and the events it adds, in order. *)
Inductive exported (a : args) (ok : PyDate.ymd -> bool) (rows : list raw_row)
  : unit + exn -> list event -> Prop :=
| exported_no_data :
    rows = [] ->
    exported a ok rows (inr (SystemExit 2)) [Print NenhumDado]
| exported_no_directory :
    rows <> [] ->
    PosixPath.dirname (out a) = EmptyString ->
    exported a ok rows (inr FileNotFoundError) []
| exported_refused :
    rows <> [] ->
    PosixPath.dirname (out a) <> EmptyString ->
    exported a ok rows (inr OSError) [Makedirs (PosixPath.dirname (out a))]
| exported_csv_only :
    rows <> [] ->
    PosixPath.dirname (out a) <> EmptyString ->
    excel a = true ->
    exported a ok rows (inr OSError)
             [Makedirs (PosixPath.dirname (out a));
              ToCsv (out a) "utf-8" (build_frame ok rows)]
| exported_csv :
    rows <> [] ->
    PosixPath.dirname (out a) <> EmptyString ->
    excel a = false ->
    exported a ok rows (inl tt)
             [Makedirs (PosixPath.dirname (out a));
              ToCsv (out a) "utf-8" (build_frame ok rows);
              Print (Ok (length (body (build_frame ok rows))) (out a))]
| exported_csv_excel :
    rows <> [] ->
    PosixPath.dirname (out a) <> EmptyString ->
    excel a = true ->
    exported a ok rows (inl tt)
             [Makedirs (PosixPath.dirname (out a));
              ToCsv (out a) "utf-8" (build_frame ok rows);
              ToExcel (xlsx_path (out a)) (build_frame ok rows);
              Print (Ok (length (body (build_frame ok rows))) (out a))].

(** A world for examples: a fixed day, answers by series alone, every
    date representable, every directory and file writable. *)
Definition world_of (today : Z) (answer : Z -> response) : world :=
  {| clock := fun _ => today;
     http := fun _ cod _ _ => answer cod;
     timestamp_ok := fun _ => true;
     mkdir_ok := fun _ _ => true;
     write_ok := fun _ _ => true |}.

(* ===================================================================== *)
(** * The request as it is sent *)
(* ===================================================================== *)

Module Calendar.

(** The days of 400, 100 and 4 years of the proleptic Gregorian
    calendar. *)
Definition DI400Y : Z := 146097.
Definition DI100Y : Z := 36524.
Definition DI4Y : Z := 1461.

(** The days of the year before the first of month [m], February
    counted short. *)
Definition days_before_month_table (m : Z) : Z :=
  match m with
  | 1 => 0 | 2 => 31 | 3 => 59 | 4 => 90 | 5 => 120 | 6 => 151
  | 7 => 181 | 8 => 212 | 9 => 243 | 10 => 273 | 11 => 304 | 12 => 334
  | _ => 0
  end.

Definition days_before_month (y m : Z) : Z :=
  days_before_month_table m + (if (2 <? m) && PyDate.is_leap y then 1 else 0).

(** The days before January 1st of year [y]. *)
Definition days_before_year (y : Z) : Z :=
  let p := y - 1 in p * 365 + p / 4 - p / 100 + p / 400.

(** [date(y, m, d).toordinal()] *)
Definition ymd2ord (d : PyDate.ymd) : Z :=
  days_before_year (PyDate.year d)
  + days_before_month (PyDate.year d) (PyDate.month d)
  + PyDate.day d.

(** The days of month [m], February counted short. *)
Definition days_in_month_table (m : Z) : Z :=
  match m with
  | 2 => 28
  | 4 | 6 | 9 | 11 => 30
  | _ => 31
  end.

(** The month and the day of the [n]-th day of a year, counted from 0:
    the month is guessed from the day and taken back by one when the
    guess starts after that day. *)
Definition month_day (n : Z) (leapyear : bool) : Z * Z :=
  let month := Z.shiftr (n + 50) 5 in
  let preceding :=
    days_before_month_table month + (if (2 <? month) && leapyear then 1 else 0) in
  if n <? preceding
  then
    let month := month - 1 in
    let preceding :=
      preceding
      - (days_in_month_table month + (if (month =? 2) && leapyear then 1 else 0)) in
    (month, n - preceding + 1)
  else (month, n - preceding + 1).

(** [date.fromordinal(n)] as year, month and day: the years are
    counted off in cycles of 400, 100, 4 and 1. *)
Definition ord2ymd (ordinal : Z) : PyDate.ymd :=
  let n := ordinal - 1 in
  let n400 := n / DI400Y in
  let n := n mod DI400Y in
  let n100 := n / DI100Y in
  let n := n mod DI100Y in
  let n4 := n / DI4Y in
  let n := n mod DI4Y in
  let n1 := n / 365 in
  let n := n mod 365 in
  let y := n400 * 400 + 1 + n100 * 100 + n4 * 4 + n1 in
  if (n1 =? 4) || (n100 =? 4) then PyDate.Ymd (y - 1) 12 31
  else
    let leapyear := (n1 =? 3) && (negb (n4 =? 24) || (n100 =? 3)) in
    let '(month, day) := month_day n leapyear in
    PyDate.Ymd y month day.

(** What [month_day] owes on the day [n] of a year. *)
Definition month_day_ok (leap : bool) (n : Z) : bool :=
  let '(m, d) := month_day n leap in
  (1 <=? m) && (m <=? 12) && (1 <=? d)
  && (d <=? days_in_month_table m + (if (m =? 2) && leap then 1 else 0))
  && (days_before_month_table m + (if (2 <? m) && leap then 1 else 0) + d =? n + 1).

(** The place of a day in the cycles of 400, 100, 4 and 1 years. *)
Record cycles : Type := Cycles { c400 : Z; c100 : Z; c4 : Z; c1 : Z; crest : Z }.

Definition cycles_of (ordinal : Z) : cycles :=
  let n := ordinal - 1 in
  let n400 := n / DI400Y in
  let n := n mod DI400Y in
  let n100 := n / DI100Y in
  let n := n mod DI100Y in
  let n4 := n / DI4Y in
  let n := n mod DI4Y in
  Cycles n400 n100 n4 (n / 365) (n mod 365).

End Calendar.

(** [str(n)] for an integer. *)
Definition str_of_int (n : Z) : string := NilEmpty.string_of_int (Z.to_int n).

(** A number below 100 on two digits, as [%d] and [%m] print it. *)
Definition two_digits (n : Z) : string :=
  String (ascii_of_nat (48 + Z.to_nat (n / 10)))
         (String (ascii_of_nat (48 + Z.to_nat (n mod 10))) EmptyString).

(** [strftime("%d/%m/%Y")] on a date of the years 1000 to 9999; the
    padding of an earlier year depends on the C library. *)
Definition strftime_dmy (d : PyDate.ymd) : string :=
  two_digits (PyDate.day d) +:+ "/" +:+ two_digits (PyDate.month d)
  +:+ "/" +:+ str_of_int (PyDate.year d).

(** [ddmmyyyy(d)], the date given by its ordinal. *)
Definition ddmmyyyy (d : Z) : string := strftime_dmy (Calendar.ord2ymd d).

(** [BASE_URL.format(codigo=codigo)] *)
Definition BASE_URL_HEAD : string := "https://api.bcb.gov.br/dados/serie/bcdata.sgs.".
Definition BASE_URL_TAIL : string := "/dados".

Definition url_of (codigo : Z) : string :=
  BASE_URL_HEAD +:+ str_of_int codigo +:+ BASE_URL_TAIL.

(** The [params] of [fetch_sgs], in the order of the dict. *)
Definition params_of (start end_ : Z) : list (string * string) :=
  [("formato", "json"); ("dataInicial", ddmmyyyy start); ("dataFinal", ddmmyyyy end_)].

(** The request of line 31 that an event [Get] stands for: the URL and
    the query. *)
Definition request_of (e : event) : option (string * list (string * string)) :=
  match e with
  | Get codigo start end_ => Some (url_of codigo, params_of start end_)
  | _ => None
  end.

(** ** Further vocabulary *)

(** The first day of year 1000, as an ordinal. *)
Definition ORD_Y1000 : Z := 364878.

(** A day or a month on two digits is read back by its directive. *)
Definition two_digits_ok (two : ascii -> ascii -> option Z) (n : Z) : bool :=
  match two_digits n with
  | String a (String b EmptyString) =>
      PyFloat.is_digit b
      && match two a b with Some v => v =? n | None => false end
  | _ => false
  end.

(** A year written by [str] is read back by [%Y]. *)
Definition year_ok (y : Z) : bool :=
  match PyDate.read_year (str_of_int y) with
  | Some v => (v =? y) && (String.length (str_of_int y) =? 4)%nat
  | None => false
  end.

(** The request for the currency [m] over a window. *)
Definition get_of (start end_ : Z) (m : string) : event :=
  Get (default 0 (dict_get SGS_SERIES m)) start end_.

(** Whether the date of a gathered row parses. *)
Definition date_parses (ok : PyDate.ymd -> bool) (r : raw_row) : bool :=
  match to_datetime ok (raw_date r) with Some _ => true | None => false end.

(** The decimal marks of a text: its periods and commas. *)
Fixpoint decimal_marks (s : string) : nat :=
  match s with
  | EmptyString => O
  | String c s' =>
      (if Ascii.eqb c "." || Ascii.eqb c "," then 1 else 0)%nat + decimal_marks s'
  end.



(* ===================================================================== *)
(** * Strings: what [split], [strip], [upper] and [replace] compute *)
(* ===================================================================== *)

Section StringFacts.

Lemma append_cons c (a b : string) : String c a +:+ b = String c (a +:+ b).
Proof. reflexivity. Qed.

Lemma append_nil_l (b : string) : EmptyString +:+ b = b.
Proof. reflexivity. Qed.

Lemma split_not_nil sep s : PyStr.split sep s <> [].
Proof.
  destruct s as [|c s]; simpl; [discriminate|].
  destruct (Ascii.eqb c sep); [discriminate|].
  destruct (PyStr.split sep s); discriminate.
Qed.

(** Joining the segments with the separator gives the text back. *)
Lemma join_split sep s :
  PyStr.join (String sep EmptyString) (PyStr.split sep s) = s.
Proof.
  induction s as [|c s IH]; simpl; [reflexivity|].
  destruct (Ascii.eqb_spec c sep) as [->|Hne].
  - pose proof (split_not_nil sep s) as Hnil.
    destruct (PyStr.split sep s) as [|seg rest]; [contradiction|].
    simpl in *. now rewrite IH.
  - pose proof (split_not_nil sep s) as Hnil.
    destruct (PyStr.split sep s) as [|seg rest]; [contradiction|].
    destruct rest as [|seg' rest]; simpl in *; now rewrite <- IH.
Qed.

(** No segment holds the separator. *)
Lemma split_segments_clean sep s :
  Forall (fun seg => all_chars (fun c => negb (Ascii.eqb c sep)) seg = true)
         (PyStr.split sep s).
Proof.
  induction s as [|c s IH]; simpl.
  - repeat constructor.
  - destruct (Ascii.eqb c sep) eqn:E.
    + constructor; [reflexivity | exact IH].
    + destruct (PyStr.split sep s) as [|seg rest].
      * repeat constructor. simpl. now rewrite E.
      * inversion IH as [|? ? Hseg Hrest]; subst.
        constructor; [|exact Hrest]. simpl. now rewrite E, Hseg.
  Qed.

Lemma lstrip_split s :
  exists pre, s = pre +:+ PyStr.lstrip s
              /\ all_chars PyStr.isspace pre = true
              /\ not_space (first_char (PyStr.lstrip s)).
Proof.
  induction s as [|c s (pre & Hs & Hpre & Hfst)]; simpl.
  - exists EmptyString. now repeat split.
  - destruct (PyStr.isspace c) eqn:E.
    + exists (String c pre). simpl. rewrite E, Hpre.
      repeat split; [now rewrite append_cons, <- Hs | exact Hfst].
    + exists EmptyString. now repeat split.
Qed.

Lemma rstrip_split s :
  exists suf, s = PyStr.rstrip s +:+ suf
              /\ all_chars PyStr.isspace suf = true
              /\ not_space (last_char (PyStr.rstrip s)).
Proof.
  induction s as [|c s (suf & Hs & Hsuf & Hlst)]; simpl.
  - exists EmptyString. now repeat split.
  - destruct (PyStr.rstrip s) as [|d t] eqn:Er.
    + destruct (PyStr.isspace c) eqn:E.
      * exists (String c suf). simpl in *. rewrite E, Hsuf. subst s. now repeat split.
      * exists suf. simpl in *. subst s. now repeat split.
    + exists suf. repeat split; [now rewrite append_cons, <- Hs | exact Hsuf |].
      simpl in *. destruct (last_char t); exact Hlst.
Qed.

(** Trimming on the right keeps a first character that is no space. *)
Lemma rstrip_first s :
  not_space (first_char s) -> not_space (first_char (PyStr.rstrip s)).
Proof.
  destruct s as [|c s]; simpl; [trivial|]. intros Hc.
  destruct (PyStr.rstrip s); [rewrite Hc|]; simpl; trivial.
Qed.

Lemma strip_trimmed s : trimmed s (PyStr.strip s).
Proof.
  unfold trimmed, PyStr.strip.
  destruct (lstrip_split s) as (pre & Hs & Hpre & Hfst).
  destruct (rstrip_split (PyStr.lstrip s)) as (suf & Hl & Hsuf & Hlst).
  exists pre, suf. repeat split; auto using rstrip_first.
  rewrite <- Hl. exact Hs.
Qed.

Lemma toupper_not_lower c : PyStr.islower (PyStr.toupper c) = false.
Proof. destruct c as [[] [] [] [] [] [] [] []]; reflexivity. Qed.

Lemma toupper_fixed c : PyStr.islower c = false -> PyStr.toupper c = c.
Proof. unfold PyStr.toupper. now intros ->. Qed.

Lemma upper_no_lower s :
  all_chars (fun c => negb (PyStr.islower c)) (PyStr.upper s) = true.
Proof.
  induction s as [|c s IH]; simpl; [reflexivity|].
  now rewrite toupper_not_lower, IH.
Qed.

Lemma upper_length s : String.length (PyStr.upper s) = String.length s.
Proof. induction s; simpl; congruence. Qed.

Lemma upper_fixed s :
  all_chars (fun c => negb (PyStr.islower c)) s = true -> PyStr.upper s = s.
Proof.
  induction s as [|c s IH]; simpl; [reflexivity|].
  intros [Hc Hs]%andb_prop. apply negb_true_iff in Hc.
  now rewrite toupper_fixed, IH.
Qed.

(** Replacing a one-character pattern is a map over the characters. *)
Lemma replace_char (a b : ascii) s :
  PyStr.replace (String a EmptyString) (String b EmptyString) s
  = map_chars (fun c => if Ascii.eqb c a then b else c) s.
Proof.
  unfold PyStr.replace.
  induction s as [|c s IH]; [reflexivity|].
  cbn [PyStr.replace_from String.prefix map_chars String.length Nat.sub].
  rewrite IH. destruct (ascii_dec a c) as [->|Hne].
  - rewrite Ascii.eqb_refl. now destruct s.
  - apply not_eq_sym in Hne. apply Ascii.eqb_neq in Hne. now rewrite Hne.
Qed.

Lemma resolve_moedas_segments s :
  resolve_moedas s = omap code_of_segment (PyStr.split "," s).
Proof.
  unfold resolve_moedas.
  induction (PyStr.split "," s) as [|seg l IH]; [reflexivity|].
  change (omap code_of_segment (seg :: l))
    with (match code_of_segment seg with
          | Some y => y :: omap code_of_segment l
          | None => omap code_of_segment l
          end).
  rewrite <- IH. unfold code_of_segment. cbn [List.filter].
  destruct (PyStr.strip seg) eqn:E; simpl; rewrite ?E; reflexivity.
Qed.

End StringFacts.

(** C10. The currency list is read segment by segment between commas:
    each segment is trimmed of surrounding whitespace and put in upper
    case, blank segments give nothing; ["usd, eur,"] resolves to USD
    and EUR. *)
Theorem resolve_moedas_trims_uppercases_skips_blank :
  (forall s,
      resolve_moedas s = omap code_of_segment (PyStr.split "," s)
      /\ PyStr.join "," (PyStr.split "," s) = s
      /\ Forall (fun seg => all_chars (fun c => negb (Ascii.eqb c ",")) seg = true)
                (PyStr.split "," s)
      /\ Forall (fun m => m <> EmptyString) (resolve_moedas s))
  /\ (forall seg, trimmed seg (PyStr.strip seg))
  /\ (forall t, all_chars (fun c => negb (PyStr.islower c)) (PyStr.upper t) = true
                /\ String.length (PyStr.upper t) = String.length t
                /\ (all_chars (fun c => negb (PyStr.islower c)) t = true
                    -> PyStr.upper t = t))
  /\ PyStr.upper "abcdefghijklmnopqrstuvwxyz" = "ABCDEFGHIJKLMNOPQRSTUVWXYZ"
  /\ resolve_moedas "usd, eur," = ["USD"; "EUR"].
Proof.
  split; [|split; [|split; [|split]]].
  - intros s. split; [apply resolve_moedas_segments|].
    split; [apply join_split|]. split; [apply split_segments_clean|].
    rewrite resolve_moedas_segments.
    induction (PyStr.split "," s) as [|seg l IH]; [constructor|].
    change (omap code_of_segment (seg :: l))
      with (match code_of_segment seg with
            | Some y => y :: omap code_of_segment l
            | None => omap code_of_segment l
            end).
    unfold code_of_segment at 1.
    destruct (PyStr.strip seg) as [|c t]; [exact IH|].
    constructor; [discriminate | exact IH].
  - apply strip_trimmed.
  - intros t. auto using upper_no_lower, upper_length, upper_fixed.
  - reflexivity.
  - reflexivity.
Qed.

(* ===================================================================== *)
(** * The row normaliser *)
(* ===================================================================== *)

Lemma normalize_item_appends moeda rows it :
  normalize_item moeda rows it = (rows ++ row_of_item moeda it)%list.
Proof.
  unfold normalize_item, row_of_item, comma_to_period.
  destruct (data it) as [dt|], (valor it) as [val|];
    rewrite ?app_nil_r; try reflexivity.
  rewrite <- (replace_char "," "." val).
  destruct (PyFloat.float _); now rewrite ?app_nil_r.
Qed.

Lemma normalize_flat_map moeda items : forall rows,
  normalize moeda items rows = (rows ++ flat_map (row_of_item moeda) items)%list.
Proof.
  unfold normalize.
  induction items as [|it items IH]; intros rows; simpl.
  - now rewrite app_nil_r.
  - rewrite IH, normalize_item_appends. now rewrite <- app_assoc.
Qed.


(* ===================================================================== *)
(** * Runs: what each stage does to the trace *)
(* ===================================================================== *)

Ltac run_step :=
  cbv [bind ret raise emit ask print sys_exit or_raise date_today
       fetch_sgs os_makedirs to_csv to_excel].

Section Stages.

Variable w : world.

(** The fetch loop only issues requests, all for the same window,
    and never leaves through [sys.exit]. *)
Lemma fetch_all_trace ms start end_ : forall rows tr r tr',
  fetch_all ms start end_ rows w tr = (r, tr') ->
  exists evs,
    tr' = (tr ++ evs)%list
    /\ Forall (fun ev => exists cod, ev = Get cod start end_) evs
    /\ (forall code, r <> inr (SystemExit code))
    /\ r <> inr OverflowError /\ r <> inr FileNotFoundError.
Proof.
  induction ms as [|m ms IH]; intros rows tr r tr'; cbn [fetch_all].
  - run_step. intros [= <- <-]. exists []. rewrite app_nil_r.
    repeat split; try constructor; discriminate.
  - run_step. destruct (dict_get SGS_SERIES m) as [cod|].
    + destruct (http w tr cod start end_) eqn:Ehttp.
      * intros [= <- <-]. exists [Get cod start end_].
        repeat split; try discriminate. repeat constructor. now exists cod.
      * intros [= <- <-]. exists [Get cod start end_].
        repeat split; try discriminate. repeat constructor. now exists cod.
      * intros H. apply IH in H as (evs & -> & Hevs & Hr).
        exists (Get cod start end_ :: evs). rewrite <- app_assoc.
        repeat split; try apply Hr. constructor; [now exists cod | exact Hevs].
    + intros [= <- <-]. exists []. rewrite app_nil_r.
      repeat split; try constructor; discriminate.
Qed.

(** When every answer is the empty list and every code is a key, the
    loop returns the rows it started with. *)
Lemma fetch_all_empty ms start end_ :
  (forall tr cod s e, http w tr cod s e = Json []) ->
  invalidas_of ms = [] ->
  forall rows tr, exists tr',
    fetch_all ms start end_ rows w tr = (inl rows, tr').
Proof.
  intros Hhttp. induction ms as [|m ms IH]; intros Hval rows tr; cbn [fetch_all].
  - now exists tr.
  - unfold invalidas_of in Hval. cbn [List.filter] in Hval.
    unfold dict_mem in Hval.
    run_step. destruct (dict_get SGS_SERIES m) as [cod|]; [|discriminate].
    cbn [negb] in Hval. rewrite Hhttp. apply (IH Hval).
Qed.

Variable a : args.

Let ms := resolve_moedas (moedas a).

(** The three ways through resolution, validation and window. *)
Lemma collect_invalid inv0 inv :
  invalidas_of ms = inv0 :: inv ->
  collect a w [] = (inr (SystemExit 1),
                    [Print (MoedasInvalidas (inv0 :: inv) (dict_keys SGS_SERIES))]).
Proof. intros H. unfold collect. fold ms. rewrite H. reflexivity. Qed.

Lemma collect_overflow :
  invalidas_of ms = [] ->
  window_start a (clock w []) = None ->
  collect a w [] = (inr OverflowError, [Today]).
Proof.
  intros H Hw. unfold collect. fold ms. rewrite H. run_step.
  cbn [app]. now rewrite Hw.
Qed.

Lemma collect_fetches start :
  invalidas_of ms = [] ->
  window_start a (clock w []) = Some start ->
  collect a w [] = fetch_all ms start (clock w []) [] w [Today].
Proof.
  intros H Hw. unfold collect. fold ms. rewrite H. run_step.
  cbn [app]. now rewrite Hw.
Qed.

(** Whatever [collect] does, its trace holds at most one reading of
    the clock, first, and then requests for the window of the run. *)
Lemma collect_trace r tr :
  collect a w [] = (r, tr) ->
  (exists inv, tr = [Print (MoedasInvalidas inv (dict_keys SGS_SERIES))]
               /\ inv = invalidas_of ms /\ inv <> [] /\ r = inr (SystemExit 1))
  \/ (invalidas_of ms = []
      /\ exists evs, tr = Today :: evs
         /\ Forall (fun ev => exists cod,
                        ev = Get cod (clock w [] - window_days a) (clock w []))
                   evs
         /\ (forall code, r <> inr (SystemExit code))
         /\ r <> inr FileNotFoundError
         /\ (window_start a (clock w []) = None -> r = inr OverflowError /\ evs = [])).
Proof.
  intros H. destruct (invalidas_of ms) as [|inv0 inv] eqn:Einv.
  - right. split; [reflexivity|].
    destruct (window_start a (clock w [])) as [start|] eqn:Ew.
    + rewrite (collect_fetches start Einv Ew) in H.
      apply fetch_all_trace in H as (evs & -> & Hevs & Hexit & _ & Hfnf).
      assert (start = clock w [] - window_days a) as <-.
      { unfold window_start, window_days, PyDate.sub_days in *.
        destruct (days a); destruct (_ <? _); try discriminate;
          destruct (_ && _); congruence. }
      exists evs. split; [reflexivity|]. split; [exact Hevs|].
      split; [exact Hexit|]. split; [exact Hfnf|]. discriminate.
    + rewrite (collect_overflow Einv Ew) in H. injection H as <- <-.
      exists []. split; [reflexivity|]. split; [constructor|].
      split; [discriminate|]. split; [discriminate|]. now split.
  - left. rewrite (collect_invalid _ _ Einv) in H. injection H as <- <-.
    exists (inv0 :: inv). repeat split; auto; discriminate.
Qed.

(** The guard of line 87. *)
Lemma export_empty tr :
  export a [] w tr = (inr (SystemExit 2), (tr ++ [Print NenhumDado])%list).
Proof. reflexivity. Qed.

(** Past the guard, with a path that has no directory part. *)
Lemma export_bare row rows tr :
  PosixPath.dirname (out a) = EmptyString ->
  export a (row :: rows) w tr = (inr FileNotFoundError, tr).
Proof. intros H. unfold export. run_step. now rewrite H. Qed.

(** Every export ends in one of the ways of [exported]. *)
Lemma export_exported rows tr r tr' :
  export a rows w tr = (r, tr') ->
  exists evs, tr' = (tr ++ evs)%list /\ exported a (timestamp_ok w) rows r evs.
Proof.
  destruct rows as [|row rows].
  { rewrite export_empty. intros [= <- <-]. eexists. split; [reflexivity|].
    now constructor. }
  assert (row :: rows <> []) as Hrows by discriminate.
  unfold export. run_step.
  destruct (PosixPath.dirname (out a)) as [|c0 s0] eqn:Edir; intros H.
  { injection H as <- <-. exists []. rewrite app_nil_r.
    split; [reflexivity|]. now constructor. }
  assert (PosixPath.dirname (out a) <> EmptyString) as Hdir by (rewrite Edir; discriminate).
  rewrite <- Edir in *.
  destruct (mkdir_ok w tr _);
    [|injection H as <- <-; eexists; split; [reflexivity|]; now constructor].
  destruct (write_ok w (tr ++ [Makedirs _]) (out a));
    [|injection H as <- <-; eexists; split; [reflexivity|]; now constructor].
  destruct (excel a) eqn:Ex.
  - destruct (write_ok w _ (xlsx_path (out a))); injection H as <- <-;
      (eexists; split; [rewrite <- !app_assoc; reflexivity|]).
    + now apply exported_csv_excel.
    + now apply exported_csv_only.
  - injection H as <- <-.
    eexists; split; [rewrite <- !app_assoc; reflexivity|].
    now apply exported_csv.
Qed.

End Stages.

Lemma run_unfold c w :
  run c w = match collect (parse_args c) w [] with
            | (inl rows, tr) => export (parse_args c) rows w tr
            | (inr e, tr) => (inr e, tr)
            end.
Proof. unfold run, main, bind. now destruct (collect _ w []) as [[rows|e] tr]. Qed.

(* ===================================================================== *)
(** * Validation of the currency codes *)
(* ===================================================================== *)

Lemma dict_mem_keys d k : dict_mem d k = true <-> In k (dict_keys d).
Proof.
  unfold dict_mem, dict_keys.
  induction d as [|[k' v] d IH]; simpl.
  - split; [discriminate | contradiction].
  - destruct (String.eqb_spec k' k) as [->|Hne].
    + split; auto.
    + rewrite IH. split; [auto | intros [H|H]; [contradiction | exact H]].
Qed.

Lemma invalidas_spec ms m :
  In m (invalidas_of ms) <-> In m ms /\ ~ valid_code m.
Proof.
  unfold invalidas_of, valid_code. rewrite filter_In, negb_true_iff.
  rewrite <- dict_mem_keys. now destruct (dict_mem SGS_SERIES m).
Qed.

Lemma invalidas_nil ms : invalidas_of ms = [] <-> Forall valid_code ms.
Proof.
  rewrite List.Forall_forall. split.
  - intros H m Hm. destruct (dict_mem SGS_SERIES m) eqn:E.
    + now apply dict_mem_keys.
    + assert (In m (invalidas_of ms)) as Hin.
      { apply invalidas_spec. split; [exact Hm|].
        unfold valid_code. rewrite <- dict_mem_keys. congruence. }
      rewrite H in Hin. contradiction.
  - intros H. destruct (invalidas_of ms) as [|m l] eqn:E; [reflexivity|].
    assert (In m (invalidas_of ms)) as Hin by (rewrite E; now left).
    apply invalidas_spec in Hin as [Hm Hbad]. now apply H in Hm.
Qed.

(* ===================================================================== *)
(** * The shape of a run *)
(* ===================================================================== *)

Section RunShape.

Variables (c : argv) (w : world).

Let a := parse_args c.
Let ms := resolve_moedas (moedas a).
Let today := clock w [].

Lemma run_rejected :
  invalidas_of ms <> [] ->
  run c w = (inr (SystemExit 1),
             [Print (MoedasInvalidas (invalidas_of ms) (dict_keys SGS_SERIES))]).
Proof.
  intros H. rewrite run_unfold. fold a.
  destruct (invalidas_of ms) as [|inv0 inv] eqn:E; [contradiction|].
  now rewrite (collect_invalid w a inv0 inv E).
Qed.

(** Past validation a run reads the clock, then fetches for one
    window; it stops there on an error, or goes on to the export. *)
Lemma run_accepted :
  invalidas_of ms = [] ->
  exists gets,
    Forall (fun ev => exists cod, ev = Get cod (today - window_days a) today) gets
    /\ ((exists e, run c w = (inr e, Today :: gets)
                   /\ collect a w [] = (inr e, Today :: gets)
                   /\ (forall code, e <> SystemExit code)
                   /\ e <> FileNotFoundError
                   /\ (window_start a today = None -> e = OverflowError /\ gets = []))
        \/ (exists rows r evs,
               collect a w [] = (inl rows, Today :: gets)
               /\ run c w = (r, (Today :: gets ++ evs)%list)
               /\ exported a (timestamp_ok w) rows r evs
               /\ window_start a today <> None)).
Proof.
  intros Hval. rewrite run_unfold. fold a.
  destruct (collect a w []) as [r tr] eqn:Ec.
  destruct (collect_trace w a r tr Ec)
    as [(inv & _ & Hinv & Hne & _) | (_ & gets & -> & Hgets & Hexit & Hfnf & Hov)].
  { subst inv. fold ms in Hne. contradiction. }
  exists gets. split; [exact Hgets|].
  destruct r as [rows|e].
  - right. destruct (export a rows w (Today :: gets)) as [r' tr'] eqn:Ee.
    apply export_exported in Ee as (evs & -> & Hevs).
    exists rows, r', evs. repeat split; auto.
    intros Hw. now destruct (Hov Hw).
  - left. exists e. repeat split; auto.
    + intros code ->. now apply (Hexit code).
    + intros ->. now apply Hfnf.
    + destruct (Hov H) as [[= ->] _]. reflexivity.
    + now destruct (Hov H).
Qed.

(** No request is issued and no clock is read during the export; no
    path is touched before it. *)
Lemma exported_events rows r evs :
  exported a (timestamp_ok w) rows r evs ->
  List.filter is_get evs = [] /\ List.filter is_today evs = []
  /\ r <> inr (SystemExit 1)
  /\ forall inv val, ~ In (Print (MoedasInvalidas inv val)) evs.
Proof.
  intros H. inversion H; subst; cbn; repeat split; try discriminate;
    intros inv val Hin; repeat (destruct Hin as [Hin|Hin]; try discriminate);
    contradiction.
Qed.

Lemma gets_events gets s e :
  Forall (fun ev => exists cod, ev = Get cod s e) gets ->
  List.filter is_get gets = gets /\ List.filter is_today gets = []
  /\ List.filter is_write gets = []
  /\ forall inv val, ~ In (Print (MoedasInvalidas inv val)) gets.
Proof.
  induction 1 as [|ev gets [cod ->] _ (IH1 & IH2 & IH3 & IH4)]; cbn.
  - repeat split; auto.
  - rewrite IH1, IH2, IH3. repeat split; auto.
    intros inv val [Hin|Hin]; [discriminate | now apply (IH4 inv val)].
Qed.

End RunShape.

(** C3. Each of USD, EUR, GBP, JPY, ARS, CHF is valid. When every
    resolved code is valid the run passes validation: it goes on to
    read the clock and never leaves with status 1 through [sys.exit].
    When some code is not, the run prints the invalid codes and the
    valid set, leaves with status 1, and has issued no request. *)
Theorem invalid_code_exits_1_before_any_request : forall c w,
  dict_keys SGS_SERIES = ["USD"; "EUR"; "GBP"; "JPY"; "ARS"; "CHF"]
  /\ (Forall valid_code (resolve_moedas (moedas (parse_args c))) ->
      (exists evs, snd (run c w) = Today :: evs)
      /\ fst (run c w) <> inr (SystemExit 1)
      /\ forall inv val, ~ In (Print (MoedasInvalidas inv val)) (snd (run c w)))
  /\ (~ Forall valid_code (resolve_moedas (moedas (parse_args c))) ->
      run c w
      = (inr (SystemExit 1),
         [Print (MoedasInvalidas (invalidas_of (resolve_moedas (moedas (parse_args c))))
                                 (dict_keys SGS_SERIES))])
      /\ exit_status (fst (run c w)) = 1
      /\ List.filter is_get (snd (run c w)) = []
      /\ List.filter is_write (snd (run c w)) = []
      /\ forall m, In m (invalidas_of (resolve_moedas (moedas (parse_args c))))
                   <-> In m (resolve_moedas (moedas (parse_args c))) /\ ~ valid_code m).
Proof.
  intros c w. split; [reflexivity|]. split.
  - intros Hok. apply invalidas_nil in Hok.
    destruct (run_accepted c w Hok) as (gets & Hgets & Hrun).
    apply gets_events in Hgets as (_ & _ & _ & Hnoprint).
    destruct Hrun as [(e & -> & _ & Hexit & _) | (rows & r & evs & _ & -> & Hex & _)];
      cbn [fst snd].
    + split; [eauto|]. split; [intros [= ->]; now apply (Hexit 1)|].
      intros inv val [H|H]; [discriminate | now apply (Hnoprint inv val)].
    + apply exported_events in Hex as (_ & _ & Hr & Hnoprint').
      split; [eauto|]. split; [exact Hr|].
      intros inv val [H|H]; [discriminate|].
      apply in_app_or in H as [H|H];
        [now apply (Hnoprint inv val) | now apply (Hnoprint' inv val)].
  - intros Hbad. rewrite <- invalidas_nil in Hbad.
    rewrite (run_rejected c w Hbad).
    split; [reflexivity|]. split; [reflexivity|]. split; [reflexivity|].
    split; [reflexivity|]. intros m. apply invalidas_spec.
Qed.

Lemma invalid_code_exits_1_before_any_request_witness :
  (Forall valid_code (resolve_moedas "usd,eur")
   /\ exists evs, snd (run (Argv (Some "usd,eur") None None None false)
                           (world_of 739000 (fun _ => Json []))) = Today :: evs)
  /\ (~ Forall valid_code (resolve_moedas "usd, brl")
      /\ run (Argv (Some "usd, brl") None None None false)
             (world_of 739000 (fun _ => Json []))
         = (inr (SystemExit 1),
            [Print (MoedasInvalidas ["BRL"] ["USD"; "EUR"; "GBP"; "JPY"; "ARS"; "CHF"])])).
Proof.
  assert (Forall valid_code (resolve_moedas "usd,eur")) as Hok.
  { apply invalidas_nil. reflexivity. }
  assert (~ Forall valid_code (resolve_moedas "usd, brl")) as Hbad.
  { rewrite <- invalidas_nil. discriminate. }
  split; [split; [exact Hok|] | split; [exact Hbad|]].
  - exact (proj1 (proj1 (proj2 (invalid_code_exits_1_before_any_request
                                  (Argv (Some "usd,eur") None None None false)
                                  (world_of 739000 (fun _ => Json [])))) Hok)).
  - exact (proj1 (proj2 (proj2 (invalid_code_exits_1_before_any_request
                                  (Argv (Some "usd, brl") None None None false)
                                  (world_of 739000 (fun _ => Json [])))) Hbad)).
Defined.

(* ===================================================================== *)
(** * The date window *)
(* ===================================================================== *)

Lemma window_start_spec a today :
  (window_start a today = Some (today - window_days a)
   /\ Z.abs (window_days a) <= PyDate.MAX_DELTA_DAYS
   /\ PyDate.MINORD <= today - window_days a <= PyDate.MAXORD)
  \/ (window_start a today = None
      /\ (PyDate.MAX_DELTA_DAYS < Z.abs (window_days a)
          \/ today - window_days a < PyDate.MINORD
          \/ PyDate.MAXORD < today - window_days a)).
Proof.
  assert (forall n,
             (PyDate.sub_days today n = Some (today - n)
              /\ Z.abs n <= PyDate.MAX_DELTA_DAYS
              /\ PyDate.MINORD <= today - n <= PyDate.MAXORD)
             \/ (PyDate.sub_days today n = None
                 /\ (PyDate.MAX_DELTA_DAYS < Z.abs n
                     \/ today - n < PyDate.MINORD
                     \/ PyDate.MAXORD < today - n))) as Hsub.
  { intros n. unfold PyDate.sub_days.
    destruct (Z.ltb_spec PyDate.MAX_DELTA_DAYS (Z.abs n)); [right; auto|].
    destruct (Z.leb_spec PyDate.MINORD (today - n));
      destruct (Z.leb_spec (today - n) PyDate.MAXORD); cbn [andb];
      [left | right | right | right]; auto. }
  unfold window_start, window_days. destruct (days a); apply Hsub.
Qed.

(** C5, amended. The clock is read once, with nothing done before, and
    that day ends the window of every request. The window starts
    [d] days earlier when a day count [d] is given, whatever the year
    count, and [365 * y] days earlier otherwise, [y] being 2 by
    default; this, when the span fits a [timedelta] and the start is a
    date of the years 1 to 9999. Otherwise the run stops on
    [OverflowError] with no request issued. *)
Theorem window_of_run : forall c w,
  let a := parse_args c in
  let today := clock w [] in
  (forall d, opt_days c = Some d -> window_days a = d)
  /\ (opt_days c = None -> window_days a = 365 * default 2 (opt_years c))
  /\ (forall cod s e,
         In (Get cod s e) (snd (run c w)) ->
         e = today /\ s = today - window_days a
         /\ Z.abs (window_days a) <= PyDate.MAX_DELTA_DAYS
         /\ PyDate.MINORD <= s <= PyDate.MAXORD)
  /\ (length (List.filter is_today (snd (run c w))) <= 1)%nat
  /\ (Forall valid_code (resolve_moedas (moedas a)) ->
      (exists evs, snd (run c w) = Today :: evs)
      /\ (Z.abs (window_days a) <= PyDate.MAX_DELTA_DAYS ->
          PyDate.MINORD <= today - window_days a <= PyDate.MAXORD ->
          window_start a today = Some (today - window_days a))
      /\ (PyDate.MAX_DELTA_DAYS < Z.abs (window_days a)
          \/ today - window_days a < PyDate.MINORD
          \/ PyDate.MAXORD < today - window_days a ->
          run c w = (inr OverflowError, [Today]))).
Proof.
  intros c w a today.
  split; [intros d Hd; unfold window_days, a; cbn; now rewrite Hd|].
  split; [intros Hd; unfold window_days, a; cbn; now rewrite Hd|].
  destruct (invalidas_of (resolve_moedas (moedas a))) as [|inv0 inv] eqn:Einv.
  - destruct (run_accepted c w Einv) as (gets & Hgets & Hrun).
    pose proof (gets_events _ _ _ Hgets) as (Hg1 & Hg2 & _).
    assert (exists r evs, run c w = (r, (Today :: gets ++ evs)%list)
                          /\ List.filter is_get evs = []
                          /\ List.filter is_today evs = []
                          /\ (window_start a today = None -> gets = []))
      as (r & evs & Hr & Hevs1 & Hevs2 & Hnone).
    { destruct Hrun as [(e & He & _ & _ & _ & Hov)
                       | (rows & r & evs & _ & Hr & Hex & Hw)].
      - exists (inr e), []. rewrite app_nil_r. repeat split; auto.
        intros Hw. now destruct (Hov Hw).
      - apply exported_events in Hex as (H1 & H2 & _).
        exists r, evs. repeat split; auto. intros Hn. contradiction. }
    rewrite Hr. cbn [snd].
    split; [|split; [|split; [eauto|split]]].
    + intros cod s e [Hin|Hin]; [discriminate|].
      assert (In (Get cod s e) gets) as Hin'.
      { apply in_app_or in Hin as [Hin|Hin]; [exact Hin|].
        assert (In (Get cod s e) (List.filter is_get evs)) as Hf
            by (apply filter_In; now split).
        rewrite Hevs1 in Hf. contradiction. }
      destruct (window_start_spec a today) as [(_ & Habs & Hrange) | (Hn & _)].
      * rewrite List.Forall_forall in Hgets.
        apply Hgets in Hin' as [cod' [= -> -> ->]]. auto.
      * rewrite (Hnone Hn) in Hin'. contradiction.
    + cbn [List.filter is_today]. rewrite List.filter_app, Hg2, Hevs2. cbn. lia.
    + intros Habs Hrange.
      destruct (window_start_spec a today) as [(Hs & _) | (_ & Hbad)]; [exact Hs|].
      fold today in Hbad. lia.
    + intros Hbad.
      destruct (window_start_spec a today) as [(_ & Habs & Hrange) | (Hn & _)];
        [fold today in Hrange; lia|].
      destruct Hrun as [(e & He & _ & _ & _ & Hov) | (rows & r' & evs' & _ & _ & _ & Hw)];
        [|contradiction].
      destruct (Hov Hn) as [-> ->]. rewrite <- Hr. exact He.
  - assert (invalidas_of (resolve_moedas (moedas a)) <> []) as Hne
        by (rewrite Einv; discriminate).
    rewrite (run_rejected c w Hne). cbn [snd].
    split; [intros cod s e [H|[]]; discriminate|].
    split; [cbn; lia|].
    intros Hok. apply invalidas_nil in Hok. now rewrite Hok in Einv.
Qed.

Lemma window_of_run_witness :
  In (Get 10813 738970 739000)
     (snd (run (Argv (Some "USD") (Some 30) None None false)
               (world_of 739000 (fun _ => Json []))))
  /\ 739000 = 739000
  /\ 738970 = 739000 - 30
  /\ Z.abs 30 <= PyDate.MAX_DELTA_DAYS
  /\ PyDate.MINORD <= 738970 <= PyDate.MAXORD.
Proof.
  assert (In (Get 10813 738970 739000)
             (snd (run (Argv (Some "USD") (Some 30) None None false)
                       (world_of 739000 (fun _ => Json []))))) as Hin
      by (right; left; reflexivity).
  split; [exact Hin|].
  exact (proj1 (proj2 (proj2 (window_of_run
                                (Argv (Some "USD") (Some 30) None None false)
                                (world_of 739000 (fun _ => Json [])))))
               10813 738970 739000 Hin).
Defined.

(** A day count that leads before year 1: no window is computed and
    the run stops on [OverflowError]. *)
Lemma window_not_always_defined :
  window_start (parse_args (Argv None (Some 4000000) None None false)) 739000
  <> Some (739000 - 4000000)
  /\ run (Argv None (Some 4000000) None None false)
         (world_of 739000 (fun _ => Json []))
     = (inr OverflowError, [Today]).
Proof. split; [discriminate | reflexivity]. Qed.

(* ===================================================================== *)
(** * The guard on empty data *)
(* ===================================================================== *)

Lemma collect_never_writes a w r tr :
  collect a w [] = (r, tr) -> List.filter is_write tr = [].
Proof.
  intros H.
  destruct (collect_trace w a r tr H)
    as [(inv & -> & _) | (_ & evs & -> & Hevs & _)]; [reflexivity|].
  cbn. now apply gets_events in Hevs as (_ & _ & Hw & _).
Qed.

(** C1, amended. When the rows gathered from the answers are none, the
    run prints "Nenhum dado", leaves with status 2 and has touched no
    path; so it is when every answer is the empty list. The guard
    reads the rows before their dates are parsed. *)
Theorem no_rows_exits_2_and_writes_nothing : forall c w,
  (forall tr,
      collect (parse_args c) w [] = (inl [], tr) ->
      run c w = (inr (SystemExit 2), (tr ++ [Print NenhumDado])%list)
      /\ exit_status (fst (run c w)) = 2
      /\ List.filter is_write (snd (run c w)) = [])
  /\ ((forall tr cod s e, http w tr cod s e = Json []) ->
      Forall valid_code (resolve_moedas (moedas (parse_args c))) ->
      window_start (parse_args c) (clock w []) <> None ->
      exit_status (fst (run c w)) = 2
      /\ In (Print NenhumDado) (snd (run c w))
      /\ List.filter is_write (snd (run c w)) = []).
Proof.
  intros c w.
  assert (forall tr,
      collect (parse_args c) w [] = (inl [], tr) ->
      run c w = (inr (SystemExit 2), (tr ++ [Print NenhumDado])%list)
      /\ exit_status (fst (run c w)) = 2
      /\ List.filter is_write (snd (run c w)) = []) as Hguard.
  { intros tr Hc. rewrite run_unfold, Hc, export_empty. cbn [fst snd].
    split; [reflexivity|]. split; [reflexivity|].
    rewrite List.filter_app, (collect_never_writes _ _ _ _ Hc). reflexivity. }
  split; [exact Hguard|].
  intros Hhttp Hok Hw. apply invalidas_nil in Hok.
  destruct (window_start (parse_args c) (clock w [])) as [start|] eqn:Ew;
    [clear Hw | contradiction].
  destruct (fetch_all_empty w _ start (clock w []) Hhttp Hok [] [Today]) as [tr Hf].
  rewrite <- (collect_fetches w _ start Hok Ew) in Hf.
  destruct (Hguard tr Hf) as (Hrun & Hst & Hwr).
  split; [exact Hst|]. split; [|exact Hwr].
  rewrite Hrun. cbn [snd]. apply in_or_app. right. now left.
Qed.

Lemma no_rows_exits_2_and_writes_nothing_witness :
  exit_status (fst (run (Argv None None None None false)
                        (world_of 739000 (fun _ => Json [])))) = 2
  /\ In (Print NenhumDado)
        (snd (run (Argv None None None None false)
                  (world_of 739000 (fun _ => Json []))))
  /\ List.filter is_write
       (snd (run (Argv None None None None false)
                 (world_of 739000 (fun _ => Json [])))) = [].
Proof.
  apply (proj2 (no_rows_exits_2_and_writes_nothing
                  (Argv None None None None false)
                  (world_of 739000 (fun _ => Json [])))).
  - reflexivity.
  - apply invalidas_nil. reflexivity.
  - discriminate.
Defined.

(** A record whose date is not in the format: the table is empty once
    the dates are parsed, and yet the run writes the file and ends
    with status 0. *)
Lemma empty_after_parsing_still_writes :
  (exists rows tr,
      collect (parse_args (Argv (Some "USD") None None None false))
              (world_of 739000 (fun _ => Json [Item (Some "2024-01-02") (Some "5,1")]))
              []
      = (inl rows, tr)
      /\ rows <> []
      /\ parse_dates (fun _ => true) rows = [])
  /\ exit_status
       (fst (run (Argv (Some "USD") None None None false)
                 (world_of 739000
                           (fun _ => Json [Item (Some "2024-01-02") (Some "5,1")]))))
     = 0
  /\ In (ToCsv "data/cotacoes.csv" "utf-8" (Frame COLUMNS []))
        (snd (run (Argv (Some "USD") None None None false)
                  (world_of 739000
                            (fun _ => Json [Item (Some "2024-01-02") (Some "5,1")])))).
Proof.
  split; [|split].
  - eexists _, _. split; [reflexivity|]. split; [discriminate | reflexivity].
  - reflexivity.
  - vm_compute. auto 10.
Qed.

(* ===================================================================== *)
(** * The output paths *)
(* ===================================================================== *)

Lemma head_without_sep p : PosixPath.has_sep p = false -> PosixPath.head p = EmptyString.
Proof.
  destruct p as [|c p]; cbn; [reflexivity|].
  intros [Hc Hp]%orb_false_elim. now rewrite Hp, Hc.
Qed.

(** A path without [/] has the empty directory name. *)
Lemma dirname_bare p : PosixPath.has_sep p = false -> PosixPath.dirname p = EmptyString.
Proof. intros H. unfold PosixPath.dirname. now rewrite (head_without_sep p H). Qed.

(** C7, at a path without directory part. [os.makedirs] is called on
    the empty string and raises: whatever the data, the run touches no
    path and never ends well; with rows to write it ends on
    [FileNotFoundError]. *)
Theorem bare_output_path_is_never_written : forall c w,
  PosixPath.has_sep (out (parse_args c)) = false ->
  PosixPath.dirname (out (parse_args c)) = EmptyString
  /\ List.filter is_write (snd (run c w)) = []
  /\ fst (run c w) <> inl tt
  /\ (forall row rows tr,
         collect (parse_args c) w [] = (inl (row :: rows), tr) ->
         run c w = (inr FileNotFoundError, tr)).
Proof.
  intros c w Hbare. pose proof (dirname_bare _ Hbare) as Hdir.
  split; [exact Hdir|].
  assert (forall row rows tr,
             collect (parse_args c) w [] = (inl (row :: rows), tr) ->
             run c w = (inr FileNotFoundError, tr)) as Hraise.
  { intros row rows tr Hc. rewrite run_unfold, Hc. now apply export_bare. }
  enough (List.filter is_write (snd (run c w)) = [] /\ fst (run c w) <> inl tt)
    as [H1 H2] by auto.
  rewrite run_unfold.
  destruct (collect (parse_args c) w []) as [[rows|e] tr] eqn:Hc;
    pose proof (collect_never_writes _ _ _ _ Hc) as Hw.
  - destruct rows as [|row rows].
    + rewrite export_empty. cbn [fst snd]. rewrite List.filter_app, Hw.
      split; [reflexivity | discriminate].
    + rewrite (export_bare w _ row rows tr Hdir). cbn [fst snd].
      split; [exact Hw | discriminate].
  - cbn [fst snd]. split; [exact Hw | discriminate].
Qed.

Lemma bare_output_path_is_never_written_witness :
  PosixPath.has_sep "cotacoes.csv" = false
  /\ run (Argv (Some "USD") None None (Some "cotacoes.csv") false)
         (world_of 739000 (fun _ => Json [Item (Some "02/01/2024") (Some "5,1234")]))
     = (inr FileNotFoundError, [Today; Get 10813 738270 739000]).
Proof.
  split; [reflexivity|].
  apply (proj2 (proj2 (proj2 (bare_output_path_is_never_written
                                (Argv (Some "USD") None None (Some "cotacoes.csv") false)
                                (world_of 739000
                                   (fun _ => Json [Item (Some "02/01/2024")
                                                        (Some "5,1234")]))
                                eq_refl)))
               (RawRow "02/01/2024" "USD" (S754_finite false 5768435582717500 (-50)))
               []).
  reflexivity.
Defined.

(** With a directory part and a file system that lets the calls
    through, the directories are made first and the CSV is written at
    the path given, in UTF-8, with the five columns in order. *)
Lemma csv_written_at_out c w p enc df :
  In (ToCsv p enc df) (snd (run c w)) ->
  p = out (parse_args c) /\ enc = "utf-8"
  /\ columns df = ["date"; "currency"; "value_brl"; "prev_value"; "pct_change_day"]
  /\ (exists rows, rows <> [] /\ df = build_frame (timestamp_ok w) rows)
  /\ exists before after,
       snd (run c w)
       = (before ++ Makedirs (PosixPath.dirname (out (parse_args c)))
                 :: ToCsv p enc df :: after)%list
       /\ List.filter is_write before = [].
Proof.
  intros Hin.
  destruct (invalidas_of (resolve_moedas (moedas (parse_args c)))) as [|i0 inv] eqn:Einv.
  - destruct (run_accepted c w Einv) as (gets & Hgets & Hrun).
    pose proof (gets_events _ _ _ Hgets) as (_ & _ & Hgw & _).
    assert (~ In (ToCsv p enc df) (Today :: gets)) as Hnot.
    { intros [H|H]; [discriminate|].
      rewrite List.Forall_forall in Hgets. apply Hgets in H as [cod H]. discriminate. }
    destruct Hrun as [(e & He & _) | (rows & r & evs & _ & Hr & Hex & _)].
    + rewrite He in Hin. contradiction.
    + rewrite Hr in *. cbn [snd] in *.
      rewrite app_comm_cons in Hin. apply in_app_or in Hin as [Hin|Hin];
        [contradiction|].
      assert (List.filter is_write (Today :: gets) = []) as Hbefore by (cbn; exact Hgw).
      inversion Hex; subst; cbn in Hin;
        repeat (destruct Hin as [Hin|Hin]; try discriminate); try contradiction;
        injection Hin as <- <- <-;
        (split; [reflexivity|]); (split; [reflexivity|]); (split; [reflexivity|]);
        (split; [eauto|]); exists (Today :: gets); eexists;
        (split; [rewrite app_comm_cons; reflexivity | exact Hbefore]).
  - assert (invalidas_of (resolve_moedas (moedas (parse_args c))) <> []) as Hne
        by (rewrite Einv; discriminate).
    rewrite (run_rejected c w Hne) in Hin. destruct Hin as [Hin|[]]. discriminate.
Qed.

(** When the text [.csv] occurs in the path only as its extension, the
    spreadsheet path is the path with that extension swapped. *)
Lemma xlsx_path_of_plain_stem stem :
  all_chars (fun c => negb (Ascii.eqb c ".")) stem = true ->
  xlsx_path (stem +:+ ".csv") = stem +:+ ".xlsx"
  /\ swap_extension (stem +:+ ".csv") = Some (stem +:+ ".xlsx").
Proof.
  unfold xlsx_path, PyStr.replace.
  induction stem as [|c stem IH]; [intros _; split; reflexivity|].
  cbn [all_chars]. intros [Hc Hs]%andb_prop. destruct (IH Hs) as [IH1 IH2].
  rewrite !append_cons. split.
  - cbn [PyStr.replace_from String.prefix].
    destruct (ascii_dec "." c) as [<-|_]; [discriminate|]. now rewrite IH1.
  - cbn [swap_extension]. rewrite IH2.
    destruct (String.eqb_spec (String c (stem +:+ ".csv")) ".csv") as [E|_];
      [|reflexivity].
    injection E as -> _. discriminate.
Qed.

(** C8, at a path whose directory holds [.csv] too. [str.replace]
    rewrites every occurrence: the spreadsheet goes to another
    directory than the CSV, one that nothing has created, and not to
    the CSV path with its extension swapped. *)
Theorem xlsx_path_rewrites_every_occurrence :
  xlsx_path "runs.csv/cotacoes.csv" = "runs.xlsx/cotacoes.xlsx"
  /\ swap_extension "runs.csv/cotacoes.csv" = Some "runs.csv/cotacoes.xlsx"
  /\ snd (run (Argv (Some "USD") None None (Some "runs.csv/cotacoes.csv") true)
              (world_of 739000 (fun _ => Json [Item (Some "02/01/2024") (Some "5,1")])))
     = [Today; Get 10813 738270 739000; Makedirs "runs.csv";
        ToCsv "runs.csv/cotacoes.csv" "utf-8"
              (build_frame (fun _ => true)
                           [RawRow "02/01/2024" "USD"
                                   (S754_finite false 5742089524897382 (-50))]);
        ToExcel "runs.xlsx/cotacoes.xlsx"
                (build_frame (fun _ => true)
                             [RawRow "02/01/2024" "USD"
                                     (S754_finite false 5742089524897382 (-50))]);
        Print (Ok 1 "runs.csv/cotacoes.csv")].
Proof. repeat split. Qed.

(* ===================================================================== *)
(** * The order of the sort *)
(* ===================================================================== *)

Section Orders.

Lemma ascii_compare_refl x : Ascii.compare x x = Eq.
Proof. unfold Ascii.compare. apply N.compare_refl. Qed.

Lemma ascii_compare_lt_trans x y z :
  Ascii.compare x y = Lt -> Ascii.compare y z = Lt -> Ascii.compare x z = Lt.
Proof. unfold Ascii.compare. rewrite !N.compare_lt_iff. lia. Qed.

Lemma string_compare_refl s : String.compare s s = Eq.
Proof. induction s as [|c s IH]; cbn; [reflexivity|]. now rewrite ascii_compare_refl. Qed.

Lemma string_compare_lt_trans a : forall b c,
  String.compare a b = Lt -> String.compare b c = Lt -> String.compare a c = Lt.
Proof.
  induction a as [|x a IH]; intros [|y b] [|z c]; cbn; try congruence.
  destruct (Ascii.compare x y) eqn:Exy; try discriminate;
    destruct (Ascii.compare y z) eqn:Eyz; try discriminate; intros Hab Hbc.
  - apply Ascii.compare_eq_iff in Exy, Eyz. subst.
    rewrite ascii_compare_refl. eauto.
  - apply Ascii.compare_eq_iff in Exy. subst. now rewrite Eyz.
  - apply Ascii.compare_eq_iff in Eyz. subst. now rewrite Exy.
  - now rewrite (ascii_compare_lt_trans x y z).
Qed.

Lemma string_compare_gt_lt a b : String.compare a b = Gt -> String.compare b a = Lt.
Proof. rewrite (String.compare_antisym b a). now intros ->. Qed.

(** The order on parsed dates is the lexicographic one. *)
Lemma date_compare_not_gt a b :
  PyDate.compare a b <> Gt <->
  PyDate.year a < PyDate.year b
  \/ (PyDate.year a = PyDate.year b
      /\ (PyDate.month a < PyDate.month b
          \/ (PyDate.month a = PyDate.month b /\ PyDate.day a <= PyDate.day b))).
Proof.
  unfold PyDate.compare.
  destruct (Z.compare_spec (PyDate.year a) (PyDate.year b));
    destruct (Z.compare_spec (PyDate.month a) (PyDate.month b));
    destruct (Z.compare_spec (PyDate.day a) (PyDate.day b));
    split; intros; try congruence; try lia.
Qed.

Lemma key_le_cases a b :
  key_le a b <->
  String.compare (d_currency a) (d_currency b) = Lt
  \/ (d_currency a = d_currency b /\ PyDate.compare (d_date a) (d_date b) <> Gt).
Proof.
  unfold key_le, key_leb.
  destruct (String.compare (d_currency a) (d_currency b)) eqn:E.
  - apply String.compare_eq_iff in E.
    destruct (PyDate.compare (d_date a) (d_date b));
      split; intros; try discriminate; auto.
    + destruct H as [H|[_ H]]; [discriminate | congruence].
  - split; auto.
  - split; [discriminate|]. intros [H|[H _]]; [discriminate|].
    rewrite H, string_compare_refl in E. discriminate.
Qed.

Lemma key_le_trans a b c : key_le a b -> key_le b c -> key_le a c.
Proof.
  rewrite !key_le_cases.
  intros [Hab|[Hab Dab]] [Hbc|[Hbc Dbc]].
  - left. eauto using string_compare_lt_trans.
  - left. now rewrite <- Hbc.
  - left. now rewrite Hab.
  - right. split; [congruence|].
    rewrite date_compare_not_gt in *. lia.
Qed.

Lemma key_le_total a b : key_leb a b = false -> key_le b a.
Proof.
  intros H. apply key_le_cases. unfold key_leb in H.
  destruct (String.compare (d_currency a) (d_currency b)) eqn:E; try discriminate.
  - apply String.compare_eq_iff in E. right. split; [auto|].
    destruct (PyDate.compare (d_date a) (d_date b)) eqn:D; try discriminate.
    rewrite date_compare_not_gt. unfold PyDate.compare in D.
    destruct (Z.compare_spec (PyDate.year (d_date a)) (PyDate.year (d_date b)));
      destruct (Z.compare_spec (PyDate.month (d_date a)) (PyDate.month (d_date b)));
      destruct (Z.compare_spec (PyDate.day (d_date a)) (PyDate.day (d_date b)));
      try discriminate; lia.
  - left. now apply string_compare_gt_lt.
Qed.

Lemma key_le_currency a b : key_le a b -> currency_le a b.
Proof.
  rewrite key_le_cases. unfold currency_le.
  intros [H|[H _]]; [congruence|]. now rewrite H, string_compare_refl.
Qed.

(** Two rows in order both ways have the same currency. *)
Lemma currency_le_antisym a b :
  currency_le a b -> currency_le b a -> d_currency a = d_currency b.
Proof.
  unfold currency_le. intros Hab Hba.
  destruct (String.compare (d_currency a) (d_currency b)) eqn:E.
  - now apply String.compare_eq_iff.
  - rewrite String.compare_antisym, E in Hba. now cbn in Hba.
  - contradiction.
Qed.

End Orders.

(* ===================================================================== *)
(** * The sort *)
(* ===================================================================== *)

Section SortValues.

Lemma insert_row_perm r l : Permutation (insert_row r l) (r :: l).
Proof.
  induction l as [|x l IH]; cbn; [reflexivity|].
  destruct (key_leb r x); [reflexivity|].
  rewrite IH. apply perm_swap.
Qed.

Lemma sort_values_perm l : Permutation (sort_values l) l.
Proof.
  unfold sort_values. induction l as [|r l IH]; cbn; [reflexivity|].
  now rewrite insert_row_perm, IH.
Qed.

Lemma insert_row_sorted r l :
  StronglySorted key_le l -> StronglySorted key_le (insert_row r l).
Proof.
  induction 1 as [|x l Hl IH Hx]; cbn; [repeat constructor|].
  destruct (key_leb r x) eqn:E.
  - constructor; [now constructor|].
    constructor; [exact E|].
    eapply List.Forall_impl; [|exact Hx]. intros y Hy. now apply key_le_trans with x.
  - constructor; [exact IH|].
    eapply Permutation_Forall; [symmetry; apply insert_row_perm|].
    constructor; [now apply key_le_total | exact Hx].
Qed.

Lemma sort_values_sorted l : StronglySorted key_le (sort_values l).
Proof.
  unfold sort_values. induction l as [|r l IH]; cbn; [constructor|].
  now apply insert_row_sorted.
Qed.

(** Rows of equal key keep the order they came in. *)
Lemma insert_row_stable r l :
  Forall (fun x => key_le r x) l -> insert_row r l = r :: l.
Proof. destruct 1 as [|x l Hx _]; cbn; [reflexivity|]. now rewrite Hx. Qed.

End SortValues.

(* ===================================================================== *)
(** * The shift within currency groups *)
(* ===================================================================== *)

Section Shift.

Lemma shift_from_length l : forall seen, length (shift_from seen l) = length l.
Proof. induction l as [|r l IH]; intros seen; cbn; [reflexivity | now rewrite IH]. Qed.

(** On any frame, sorted or not: a row takes the value of the last
    row before it with its currency, or what was seen before the
    frame. *)
Lemma shift_from_lookup l : forall seen i r,
  l !! i = Some r ->
  shift_from seen l !! i
  = Some (default (default PyFloat.nan (seen !! d_currency r))
                  (last_of_currency (d_currency r) (take i l))).
Proof.
  induction l as [|x l IH]; intros seen [|i] r Hr; try discriminate.
  - injection Hr as ->. reflexivity.
  - cbn [lookup list_lookup] in Hr. cbn [shift_from take].
    change ((?y :: ?t) !! S i) with (t !! i).
    rewrite (IH _ _ _ Hr). f_equal.
    unfold last_of_currency. cbn [List.filter].
    destruct (String.eqb_spec (d_currency x) (d_currency r)) as [E|E].
    + rewrite last_cons, E, lookup_insert_eq.
      now destruct (last (List.filter _ (take i l))).
    + now rewrite lookup_insert_ne.
Qed.

Lemma sorted_lookup {A} (R : A -> A -> Prop) l :
  StronglySorted R l ->
  forall i j a b, (i < j)%nat -> l !! i = Some a -> l !! j = Some b -> R a b.
Proof.
  induction 1 as [|x l _ IH Hx]; intros i j a b Hij Ha Hb; [discriminate|].
  destruct j as [|j]; [lia|]. cbn in Hb.
  destruct i as [|i]; cbn in Ha.
  - injection Ha as <-. rewrite List.Forall_forall in Hx. apply Hx.
    apply list_elem_of_In. eapply list_elem_of_lookup_2. exact Hb.
  - apply (IH i j); auto. lia.
Qed.

Lemma filter_none {A} (f : A -> bool) l :
  (forall x, x ∈ l -> f x = false) -> List.filter f l = [].
Proof.
  induction l as [|x l IH]; intros H; cbn; [reflexivity|].
  rewrite (H x) by constructor. apply IH. intros y Hy. apply H. now constructor.
Qed.

(** On a sorted frame the last row of a currency, if any, is the row
    just before. *)
Lemma last_of_currency_sorted l i p q :
  StronglySorted currency_le l ->
  l !! i = Some p -> l !! S i = Some q ->
  last_of_currency (d_currency q) (take (S i) l)
  = if String.eqb (d_currency p) (d_currency q) then Some (d_value p) else None.
Proof.
  intros Hs Hp Hq. unfold last_of_currency.
  rewrite (take_S_r _ _ _ Hp), List.filter_app. cbn [List.filter].
  destruct (String.eqb_spec (d_currency p) (d_currency q)) as [E|E].
  - now rewrite last_snoc.
  - rewrite app_nil_r, filter_none; [reflexivity|].
    intros k [j [Hk Hj]]%elem_of_take. apply String.eqb_neq. intros Ek.
    apply E. apply currency_le_antisym.
    + apply (sorted_lookup _ _ Hs i (S i)); auto.
    + assert (currency_le k p) as Hkp by (apply (sorted_lookup _ _ Hs j i); auto).
      unfold currency_le in *. now rewrite <- Ek.
Qed.

End Shift.

(* ===================================================================== *)
(** * The final frame *)
(* ===================================================================== *)

Section Frame.

Variable ok : PyDate.ymd -> bool.
Variable rows : list raw_row.

Let df := sort_values (parse_dates ok rows).
Let t := body (build_frame ok rows).

Lemma body_lookup i q :
  t !! i = Some q <->
  exists r prev, df !! i = Some r /\ groupby_shift df !! i = Some prev
                 /\ q = with_deltas r prev.
Proof.
  unfold t, build_frame. cbn [body]. fold df.
  rewrite lookup_zip_with_Some.
  split; intros (r & prev & H1 & H2 & H3); exists r, prev; auto.
Qed.

Lemma body_undelta : map undelta t = df.
Proof.
  unfold t, build_frame. cbn [body]. fold df. unfold groupby_shift.
  generalize (∅ : gmap string spec_float).
  induction df as [|r l IH]; intros seen; cbn; [reflexivity|].
  rewrite IH. now destruct r.
Qed.

Lemma df_currency_sorted : StronglySorted currency_le df.
Proof.
  pose proof (sort_values_sorted (parse_dates ok rows)) as H. fold df in H.
  induction H as [|x l _ IH Hx]; constructor; [exact IH|].
  eapply List.Forall_impl; [|exact Hx]. apply key_le_currency.
Qed.

Lemma body_first q : t !! 0%nat = Some q -> prev_value q = PyFloat.nan.
Proof.
  intros (r & prev & Hr & Hprev & ->)%body_lookup. cbn [prev_value with_deltas].
  unfold groupby_shift in Hprev.
  rewrite (shift_from_lookup _ _ _ _ Hr) in Hprev. now injection Hprev as <-.
Qed.

Lemma body_next i p q :
  t !! i = Some p -> t !! S i = Some q ->
  prev_value q
  = if String.eqb (currency p) (currency q) then value_brl p else PyFloat.nan.
Proof.
  intros (r1 & prev1 & Hr1 & _ & ->)%body_lookup
         (r2 & prev2 & Hr2 & Hprev & ->)%body_lookup.
  cbn [prev_value currency value_brl with_deltas].
  unfold groupby_shift in Hprev.
  rewrite (shift_from_lookup _ _ _ _ Hr2) in Hprev. injection Hprev as <-.
  rewrite (last_of_currency_sorted _ _ _ _ df_currency_sorted Hr1 Hr2).
  now destruct (String.eqb _ _).
Qed.

End Frame.

(** C4. The frame holds the rows whose date parses, sorted by currency
    and then date. A row's [prev_value] is the [value_brl] of the row
    just above when that row has the same currency, and is absent
    otherwise, at the top of the frame too: a value never comes from a
    row of another currency, however the rows came in. *)
Theorem prev_value_stays_within_currency : forall ok rows,
  Permutation (map undelta (body (build_frame ok rows))) (parse_dates ok rows)
  /\ StronglySorted key_le (map undelta (body (build_frame ok rows)))
  /\ (forall q, body (build_frame ok rows) !! 0%nat = Some q ->
                prev_value q = PyFloat.nan)
  /\ (forall i p q,
         body (build_frame ok rows) !! i = Some p ->
         body (build_frame ok rows) !! S i = Some q ->
         prev_value q
         = if String.eqb (currency p) (currency q) then value_brl p else PyFloat.nan)
  /\ (forall i q,
         body (build_frame ok rows) !! i = Some q ->
         prev_value q = PyFloat.nan
         \/ exists j p, i = S j /\ body (build_frame ok rows) !! j = Some p
                        /\ currency p = currency q /\ prev_value q = value_brl p).
Proof.
  intros ok rows. rewrite body_undelta.
  split; [apply sort_values_perm|]. split; [apply sort_values_sorted|].
  split; [apply body_first|]. split; [apply body_next|].
  intros [|j] q Hq; [left; now apply (body_first ok rows)|].
  destruct (body (build_frame ok rows) !! j) as [p|] eqn:Hp.
  - rewrite (body_next ok rows j p q Hp Hq).
    destruct (String.eqb_spec (currency p) (currency q)) as [E|_]; [right | now left].
    exists j, p. auto.
  - apply lookup_ge_None_1 in Hp. apply lookup_lt_Some in Hq. lia.
Qed.

Lemma prev_value_stays_within_currency_witness :
  body (build_frame (fun _ => true)
          [RawRow "02/01/2024" "USD" (PyFloat.of_Z 5);
           RawRow "02/01/2024" "EUR" (PyFloat.of_Z 7);
           RawRow "01/01/2024" "USD" (PyFloat.of_Z 4);
           RawRow "01/01/2024" "EUR" (PyFloat.of_Z 6)]) !! 1%nat
  = Some (Quote (PyDate.Ymd 2024 1 2) "EUR" (PyFloat.of_Z 7) (PyFloat.of_Z 6)
                (pct_change (PyFloat.of_Z 7) (PyFloat.of_Z 6)))
  /\ body (build_frame (fun _ => true)
             [RawRow "02/01/2024" "USD" (PyFloat.of_Z 5);
              RawRow "02/01/2024" "EUR" (PyFloat.of_Z 7);
              RawRow "01/01/2024" "USD" (PyFloat.of_Z 4);
              RawRow "01/01/2024" "EUR" (PyFloat.of_Z 6)]) !! 2%nat
     = Some (Quote (PyDate.Ymd 2024 1 1) "USD" (PyFloat.of_Z 4) PyFloat.nan PyFloat.nan)
  /\ prev_value
       (Quote (PyDate.Ymd 2024 1 1) "USD" (PyFloat.of_Z 4) PyFloat.nan PyFloat.nan)
     = (if String.eqb "EUR" "USD" then PyFloat.of_Z 7 else PyFloat.nan).
Proof.
  split; [reflexivity|]. split; [reflexivity|].
  exact (proj1 (proj2 (proj2 (proj2 (prev_value_stays_within_currency
           (fun _ => true)
           [RawRow "02/01/2024" "USD" (PyFloat.of_Z 5);
            RawRow "02/01/2024" "EUR" (PyFloat.of_Z 7);
            RawRow "01/01/2024" "USD" (PyFloat.of_Z 4);
            RawRow "01/01/2024" "EUR" (PyFloat.of_Z 6)]))))
         1%nat
         (Quote (PyDate.Ymd 2024 1 2) "EUR" (PyFloat.of_Z 7) (PyFloat.of_Z 6)
                (pct_change (PyFloat.of_Z 7) (PyFloat.of_Z 6)))
         (Quote (PyDate.Ymd 2024 1 1) "USD" (PyFloat.of_Z 4) PyFloat.nan PyFloat.nan)
         eq_refl eq_refl).
Defined.

(* ===================================================================== *)
(** * The day-over-day change *)
(* ===================================================================== *)

Section PctChange.

Lemma of_Z_1 : PyFloat.of_Z 1 = S754_finite false 4503599627370496 (-52).
Proof. reflexivity. Qed.

Lemma of_Z_100 : PyFloat.of_Z 100 = S754_finite false 7036874417766400 (-46).
Proof. reflexivity. Qed.

(** No previous value, no change. *)
Lemma pct_change_nan_prev v : pct_change v PyFloat.nan = PyFloat.nan.
Proof. unfold pct_change. rewrite of_Z_1, of_Z_100. now destruct v. Qed.

(** The division by zero is carried out as IEEE 754 has it. *)
Lemma pct_change_zero_prev v s :
  pct_change v (S754_zero s)
  = match v with
    | S754_nan | S754_zero _ => S754_nan
    | S754_infinity sv | S754_finite sv _ _ => S754_infinity (xorb sv s)
    end.
Proof.
  unfold pct_change. rewrite of_Z_1, of_Z_100.
  destruct v as [sv|sv| |sv m e]; cbn; try reflexivity; now rewrite xorb_false_r.
Qed.

Lemma body_rows ok rows q :
  In q (body (build_frame ok rows)) ->
  exists r prev, q = with_deltas r prev.
Proof.
  intros [i Hi]%list_elem_of_In%list_elem_of_lookup_1.
  apply body_lookup in Hi as (r & prev & _ & _ & ->). eauto.
Qed.

End PctChange.

(** C2, amended. In every row of the frame [pct_change_day] is
    [(value_brl / prev_value - 1) * 100] in double arithmetic,
    whatever [prev_value] is. It is absent when [prev_value] is
    absent. When [prev_value] is zero the division is carried out all
    the same: the result is an infinity, or absent when [value_brl] is
    zero or absent too. *)
Theorem pct_change_day_is_the_float_formula : forall ok rows q,
  In q (body (build_frame ok rows)) ->
  pct_change_day q
  = PyFloat.fmul (PyFloat.fsub (PyFloat.fdiv (value_brl q) (prev_value q))
                               (PyFloat.of_Z 1))
                 (PyFloat.of_Z 100)
  /\ (PyFloat.is_nan (prev_value q) = true ->
      PyFloat.is_nan (pct_change_day q) = true)
  /\ (PyFloat.is_zero (prev_value q) = true ->
      PyFloat.is_nan (pct_change_day q)
      = PyFloat.is_nan (value_brl q) || PyFloat.is_zero (value_brl q)
      /\ PyFloat.is_inf (pct_change_day q)
         = negb (PyFloat.is_nan (value_brl q) || PyFloat.is_zero (value_brl q))).
Proof.
  intros ok rows q (r & prev & ->)%body_rows.
  cbn [pct_change_day value_brl prev_value with_deltas].
  split; [reflexivity|]. split.
  - destruct prev; try discriminate. intros _. now rewrite pct_change_nan_prev.
  - destruct prev as [s| | |]; try discriminate. intros _.
    rewrite pct_change_zero_prev. now destruct (d_value r).
Qed.

Lemma pct_change_day_is_the_float_formula_witness :
  In (Quote (PyDate.Ymd 2024 1 2) "USD"
            (S754_finite false 6192449487634432 (-50))
            (S754_finite false 5629499534213120 (-50))
            (S754_finite false 5629499534213125 (-49)))
     (body (build_frame (fun _ => true)
              (normalize "USD" [Item (Some "01/01/2024") (Some "5,0");
                                Item (Some "02/01/2024") (Some "5,5")] [])))
  /\ S754_finite false 5629499534213125 (-49)
     = PyFloat.fmul
         (PyFloat.fsub (PyFloat.fdiv (S754_finite false 6192449487634432 (-50))
                                     (S754_finite false 5629499534213120 (-50)))
                       (PyFloat.of_Z 1))
         (PyFloat.of_Z 100).
Proof.
  assert (In (Quote (PyDate.Ymd 2024 1 2) "USD"
                    (S754_finite false 6192449487634432 (-50))
                    (S754_finite false 5629499534213120 (-50))
                    (S754_finite false 5629499534213125 (-49)))
             (body (build_frame (fun _ => true)
                      (normalize "USD" [Item (Some "01/01/2024") (Some "5,0");
                                        Item (Some "02/01/2024") (Some "5,5")] []))))
    as Hin by (right; left; reflexivity).
  split; [exact Hin|].
  exact (proj1 (pct_change_day_is_the_float_formula _ _ _ Hin)).
Defined.

(** A rate of zero followed by another rate: [prev_value] is zero and
    [pct_change_day] is an infinity, not absent. *)
Lemma zero_prev_value_gives_infinity :
  body (build_frame (fun _ => true)
          (normalize "EUR" [Item (Some "01/01/2024") (Some "0");
                            Item (Some "02/01/2024") (Some "6,1")] [])) !! 1%nat
  = Some (Quote (PyDate.Ymd 2024 1 2) "EUR"
                (S754_finite false 6867989431740006 (-50))
                (S754_zero false)
                (S754_infinity false))
  /\ PyFloat.is_zero (S754_zero false) = true
  /\ PyFloat.is_nan (S754_infinity false) = false.
Proof. repeat split. Qed.

(** From 5.0 to 5.5 the change computed is 10.000000000000009, the
    double next above 10 by five units in the last place. *)
Lemma ten_percent_is_not_exact :
  pct_change (S754_finite false 6192449487634432 (-50))
             (S754_finite false 5629499534213120 (-50))
  = S754_finite false 5629499534213125 (-49)
  /\ PyFloat.of_Z 10 = S754_finite false 5629499534213120 (-49)
  /\ PyFloat.float "5.5" = Some (S754_finite false 6192449487634432 (-50))
  /\ PyFloat.float "5.0" = Some (S754_finite false 5629499534213120 (-50)).
Proof. repeat split. Qed.

(* ===================================================================== *)
(** * The requests of a run *)
(* ===================================================================== *)

Section Requests.

Variable w : world.

Lemma invalidas_cons_nil m ms :
  invalidas_of (m :: ms) = [] ->
  (exists cod, dict_get SGS_SERIES m = Some cod) /\ invalidas_of ms = [].
Proof.
  unfold invalidas_of, dict_mem. cbn [List.filter].
  destruct (dict_get SGS_SERIES m) as [cod|]; cbn [negb]; [eauto | discriminate].
Qed.

(** The loop asks for the currencies one by one, in order, and stops
    at the first answer that is no list of records. *)
Lemma fetch_all_requests ms s e : forall rows tr r tr',
  invalidas_of ms = [] ->
  fetch_all ms s e rows w tr = (r, tr') ->
  exists k, (k <= length ms)%nat
    /\ tr' = (tr ++ map (get_of s e) (take k ms))%list
    /\ match r with
       | inl _ => k = length ms
       | inr ex =>
           exists j m, k = S j /\ ms !! j = Some m
             /\ ((http w (tr ++ map (get_of s e) (take j ms))%list
                       (default 0 (dict_get SGS_SERIES m)) s e = Failed
                  /\ ex = RuntimeError (default 0 (dict_get SGS_SERIES m)))
                 \/ (http w (tr ++ map (get_of s e) (take j ms))%list
                          (default 0 (dict_get SGS_SERIES m)) s e = NotAList
                     /\ ex = ValueError))
       end.
Proof.
  induction ms as [|m ms IH]; intros rows tr r tr' Hval; cbn [fetch_all].
  - run_step. intros [= <- <-]. exists O. cbn. now rewrite app_nil_r.
  - destruct (invalidas_cons_nil _ _ Hval) as [[cod Hcod] Hval'].
    run_step. rewrite Hcod.
    assert (get_of s e m = Get cod s e) as Hget by (unfold get_of; now rewrite Hcod).
    destruct (http w tr cod s e) eqn:Ehttp.
    + intros [= <- <-]. exists 1%nat. cbn [length take map]. rewrite Hget.
      split; [lia|]. split; [now destruct ms|].
      exists O, m. split; [reflexivity|]. split; [reflexivity|].
      cbn [take map]. rewrite app_nil_r, Hcod. cbn [default]. auto.
    + intros [= <- <-]. exists 1%nat. cbn [length take map]. rewrite Hget.
      split; [lia|]. split; [now destruct ms|].
      exists O, m. split; [reflexivity|]. split; [reflexivity|].
      cbn [take map]. rewrite app_nil_r, Hcod. cbn [default]. auto.
    + intros H. apply (IH _ _ _ _ Hval') in H as (k & Hk & -> & Hr).
      exists (S k). cbn [length take map]. rewrite Hget, <- app_assoc.
      split; [lia|]. split; [reflexivity|].
      destruct r as [rows'|ex]; [now rewrite Hr|].
      destruct Hr as (j & m' & -> & Hm' & Hhttp).
      exists (S j), m'. cbn [take map]. rewrite Hget.
      rewrite <- app_assoc in Hhttp. auto.
Qed.

(** Every row the loop adds carries the currency it was fetched for. *)
Lemma fetch_all_rows ms s e : forall rows tr rows' tr',
  fetch_all ms s e rows w tr = (inl rows', tr') ->
  exists added, rows' = (rows ++ added)%list
                /\ Forall (fun r => In (raw_currency r) ms) added.
Proof.
  induction ms as [|m ms IH]; intros rows tr rows' tr'; cbn [fetch_all].
  - run_step. intros [= <- <-]. exists []. now rewrite app_nil_r.
  - run_step. destruct (dict_get SGS_SERIES m) as [cod|]; [|discriminate].
    destruct (http w tr cod s e) as [| |items]; try discriminate.
    intros H. apply IH in H as (added & -> & Hadded).
    rewrite normalize_flat_map, <- app_assoc. eexists. split; [reflexivity|].
    apply Forall_app. split.
    + apply List.Forall_forall. intros r Hr. apply in_flat_map in Hr as (it & _ & Hr).
      unfold row_of_item in Hr.
      destruct (data it), (valor it); try contradiction.
      destruct (PyFloat.float _); [|contradiction].
      destruct Hr as [<-|[]]. now left.
    + eapply List.Forall_impl; [|exact Hadded]. intros r Hr. now right.
Qed.

End Requests.

Section RunFacts.

Variables (c : argv) (w : world).

Let a := parse_args c.
Let ms := resolve_moedas (moedas a).
Let today := clock w [].
Let start := today - window_days a.

(** The whole of a run, by the stage it ends in. *)
Lemma run_cases :
  (invalidas_of ms <> []
   /\ run c w = (inr (SystemExit 1),
                 [Print (MoedasInvalidas (invalidas_of ms) (dict_keys SGS_SERIES))]))
  \/ (invalidas_of ms = [] /\ window_start a today = None
      /\ run c w = (inr OverflowError, [Today]))
  \/ (invalidas_of ms = [] /\ window_start a today = Some start
      /\ exists k, (k <= length ms)%nat
         /\ ((exists j m ex,
                 k = S j /\ ms !! j = Some m
                 /\ run c w = (inr ex, Today :: map (get_of start today) (take k ms))
                 /\ ((http w (Today :: map (get_of start today) (take j ms))
                           (default 0 (dict_get SGS_SERIES m)) start today = Failed
                      /\ ex = RuntimeError (default 0 (dict_get SGS_SERIES m)))
                     \/ (http w (Today :: map (get_of start today) (take j ms))
                              (default 0 (dict_get SGS_SERIES m)) start today = NotAList
                         /\ ex = ValueError)))
             \/ (k = length ms
                 /\ exists rows r evs,
                      collect a w [] = (inl rows, Today :: map (get_of start today) ms)
                      /\ Forall (fun x => In (raw_currency x) ms) rows
                      /\ run c w = (r, (Today :: map (get_of start today) ms ++ evs)%list)
                      /\ exported a (timestamp_ok w) rows r evs))).
Proof.
  destruct (invalidas_of ms) as [|i0 inv] eqn:Einv.
  - right. destruct (window_start_spec a today) as [(Hs & _) | (Hn & _)].
    + right. split; [reflexivity|]. split; [exact Hs|].
      pose proof (collect_fetches w a start Einv Hs) as Hc. fold ms today in Hc.
      destruct (fetch_all ms start today [] w [Today]) as [r tr] eqn:Hf.
      pose proof (fetch_all_requests w _ _ _ _ _ _ _ Einv Hf) as (k & Hk & -> & Hr).
      exists k. split; [exact Hk|].
      rewrite run_unfold. fold a. rewrite Hc.
      destruct r as [rows|ex].
      * right. subst k. rewrite firstn_all in *. split; [reflexivity|].
        apply fetch_all_rows in Hf as (added & -> & Hadded).
        cbn [app] in *.
        destruct (export a added w (Today :: map (get_of start today) ms))
          as [r' tr'] eqn:He.
        apply export_exported in He as (evs & -> & Hex).
        exists added, r', evs. auto.
      * left. destruct Hr as (j & m & -> & Hm & Hhttp).
        exists j, m, ex. auto.
    + left. split; [reflexivity|]. split; [exact Hn|].
      rewrite run_unfold. fold a. now rewrite (collect_overflow w a Einv Hn).
  - left. assert (invalidas_of ms <> []) as Hne by (rewrite Einv; discriminate).
    split; [now rewrite <- Einv|]. rewrite <- Einv. apply (run_rejected c w Hne).
Qed.

End RunFacts.

Lemma filter_get_requests s e ms :
  List.filter is_get (map (get_of s e) ms) = map (get_of s e) ms
  /\ List.filter is_write (map (get_of s e) ms) = [].
Proof.
  induction ms as [|m ms [IH1 IH2]]; [now split|].
  cbn. now rewrite IH1, IH2.
Qed.



(** X2. Past validation a run asks for the resolved codes one after
    another, in the order they were given and as often as they were
    given, each under the series of its code and all over one window;
    it has asked for all of them when it ends with status 0 or 2. *)
Theorem requests_follow_the_currency_list : forall c w,
  Forall valid_code (resolve_moedas (moedas (parse_args c))) ->
  exists k,
    (k <= length (resolve_moedas (moedas (parse_args c))))%nat
    /\ List.filter is_get (snd (run c w))
       = map (get_of (clock w [] - window_days (parse_args c)) (clock w []))
             (take k (resolve_moedas (moedas (parse_args c))))
    /\ (exit_status (fst (run c w)) <> 1 ->
        k = length (resolve_moedas (moedas (parse_args c))))
    /\ Forall (fun m => exists cod, dict_get SGS_SERIES m = Some cod
                                    /\ get_of (clock w [] - window_days (parse_args c))
                                              (clock w []) m
                                       = Get cod (clock w [] - window_days (parse_args c))
                                             (clock w []))
              (resolve_moedas (moedas (parse_args c))).
Proof.
  intros c w Hok. pose proof Hok as Hval. apply invalidas_nil in Hval.
  assert (Forall (fun m => exists cod, dict_get SGS_SERIES m = Some cod
                                    /\ get_of (clock w [] - window_days (parse_args c))
                                              (clock w []) m
                                       = Get cod (clock w [] - window_days (parse_args c))
                                             (clock w []))
              (resolve_moedas (moedas (parse_args c)))) as Hseries.
  { eapply List.Forall_impl; [|exact Hok]. intros m Hm.
    apply dict_mem_keys in Hm. unfold dict_mem, get_of in *.
    destruct (dict_get SGS_SERIES m) as [cod|]; [eauto | discriminate]. }
  destruct (run_cases c w)
    as [(Hne & _) | [(_ & _ & H) | (_ & _ & k & Hk & [H | (-> & H)])]].
  - contradiction.
  - exists O. rewrite H. cbn. repeat split; auto. lia. intros Hst. now contradiction Hst.
  - destruct H as (j & m & ex & -> & Hm & Hr & Hhttp). exists (S j).
    rewrite Hr. cbn [fst snd List.filter is_get].
    rewrite (proj1 (filter_get_requests _ _ _)).
    repeat split; auto.
    intros Hst. exfalso. apply Hst.
    destruct Hhttp as [[_ ->] | [_ ->]]; reflexivity.
  - destruct H as (rows & r & evs & _ & _ & Hr & Hexp).
    exists (length (resolve_moedas (moedas (parse_args c)))).
    rewrite Hr, firstn_all. cbn [fst snd List.filter is_get].
    rewrite List.filter_app, (proj1 (filter_get_requests _ _ _)).
    apply exported_events in Hexp as (-> & _). rewrite app_nil_r.
    repeat split; auto.
Qed.

Lemma requests_follow_the_currency_list_witness :
  exists k,
    (k <= 3)%nat
    /\ List.filter is_get
         (snd (run (Argv (Some "eur,usd,eur") (Some 30) None None false)
                   (world_of 739000 (fun _ => Json []))))
       = map (get_of (739000 - 30) 739000) (take k ["EUR"; "USD"; "EUR"])
    /\ (exit_status
          (fst (run (Argv (Some "eur,usd,eur") (Some 30) None None false)
                    (world_of 739000 (fun _ => Json [])))) <> 1 -> k = 3%nat)
    /\ Forall (fun m => exists cod, dict_get SGS_SERIES m = Some cod
                                    /\ get_of (739000 - 30) 739000 m
                                       = Get cod (739000 - 30) 739000)
              ["EUR"; "USD"; "EUR"].
Proof.
  apply (requests_follow_the_currency_list
           (Argv (Some "eur,usd,eur") (Some 30) None None false)
           (world_of 739000 (fun _ => Json []))).
  apply invalidas_nil. reflexivity.
Defined.

(* ===================================================================== *)
(** * What a run exports *)
(* ===================================================================== *)

(** The cases of a membership in a list written out, those that clash
    dropped. *)
Ltac in_cases H :=
  repeat (destruct H as [H|H]; [try discriminate|]); try contradiction.

Lemma parse_dates_length ok rows :
  length (parse_dates ok rows) = length (List.filter (date_parses ok) rows).
Proof.
  unfold parse_dates, date_parses.
  induction rows as [|r rows IH]; [reflexivity|].
  cbn [omap list_omap List.filter].
  destruct (to_datetime ok (raw_date r)); cbn; now rewrite IH.
Qed.

Lemma build_frame_length ok rows :
  length (body (build_frame ok rows)) = length (List.filter (date_parses ok) rows).
Proof.
  rewrite <- parse_dates_length, <- (Permutation_length (sort_values_perm _)).
  rewrite <- (body_undelta ok rows). now rewrite length_map.
Qed.

(** A row of the frame is a gathered row with its date parsed. *)
Lemma build_frame_rows ok rows q :
  In q (body (build_frame ok rows)) ->
  exists r, In r rows
            /\ PyDate.strptime_dmy (raw_date r) = Some (date q)
            /\ ok (date q) = true
            /\ raw_currency r = currency q
            /\ raw_value r = value_brl q.
Proof.
  intros Hq. apply (in_map undelta) in Hq. rewrite body_undelta in Hq.
  apply (Permutation_in _ (sort_values_perm _)) in Hq.
  apply list_elem_of_In in Hq. unfold parse_dates in Hq.
  apply list_elem_of_omap in Hq as (r & Hr & Hd).
  exists r. split; [now apply list_elem_of_In|].
  unfold to_datetime in Hd.
  destruct (PyDate.strptime_dmy (raw_date r)) as [d|]; [|discriminate].
  destruct (ok d) eqn:Hok; [|discriminate].
  unfold undelta in Hd. cbn in Hd. injection Hd as Hd1 Hd2 Hd3. subst d. auto.
Qed.

Lemma strptime_valid s d : PyDate.strptime_dmy s = Some d -> PyDate.valid d = true.
Proof.
  unfold PyDate.strptime_dmy.
  destruct (PyDate.read_field _ s) as [[dd r1]|]; [|discriminate].
  destruct (PyDate.read_field _ r1) as [[mm r2]|]; [|discriminate].
  destruct (PyDate.read_year r2) as [yy|]; [|discriminate].
  destruct (PyDate.valid _) eqn:E; [|discriminate]. now intros [= <-].
Qed.

Section Exports.

Variables (c : argv) (w : world).

(** The frames a run writes, and where; the run behind a message of
    success. *)
Lemma run_writes p df :
  In (ToCsv p "utf-8" df) (snd (run c w)) \/ In (ToExcel p df) (snd (run c w)) ->
  exists rows tr r evs,
    collect (parse_args c) w [] = (inl rows, tr)
    /\ Forall (fun x => In (raw_currency x) (resolve_moedas (moedas (parse_args c)))) rows
    /\ invalidas_of (resolve_moedas (moedas (parse_args c))) = []
    /\ List.filter is_write tr = []
    /\ run c w = (r, (tr ++ evs)%list)
    /\ exported (parse_args c) (timestamp_ok w) rows r evs
    /\ (In (ToCsv p "utf-8" df) (snd (run c w)) -> In (ToCsv p "utf-8" df) evs)
    /\ (In (ToExcel p df) (snd (run c w)) -> In (ToExcel p df) evs).
Proof.
  intros Hin.
  destruct (run_cases c w)
    as [(_ & H) | [(_ & _ & H) | (Hval & _ & k & _ & [H | (_ & H)])]].
  - rewrite H in Hin. destruct Hin as [[Hin|[]]|[Hin|[]]]; discriminate.
  - rewrite H in Hin. destruct Hin as [[Hin|[]]|[Hin|[]]]; discriminate.
  - destruct H as (j & m & ex & _ & _ & H & _). rewrite H in Hin. cbn [snd] in Hin.
    exfalso. destruct Hin as [[Hin|Hin]|[Hin|Hin]]; try discriminate;
      apply in_map_iff in Hin as (x & Hx & _); discriminate.
  - destruct H as (rows & r & evs & Hc & Hrows & Hr & Hexp).
    eexists rows, _, r, evs. split; [exact Hc|]. split; [exact Hrows|].
    split; [exact Hval|]. split; [now apply (collect_never_writes _ _ _ _ Hc)|].
    split; [exact Hr|]. split; [exact Hexp|].
    rewrite Hr. cbn [snd]. rewrite app_comm_cons.
    split; intros Hin'; apply in_app_or in Hin' as [Hin'|Hin']; auto;
      exfalso; (destruct Hin' as [Hin'|Hin']; [discriminate|]);
      apply in_map_iff in Hin' as (x & Hx & _); discriminate.
Qed.

End Exports.

(** X3. Every row of a file that a run writes has one of the codes the
    run was asked for, a valid one, and a date that was read from a
    text under [%d/%m/%Y]: a day that exists, in the range pandas
    holds. The CSV and the spreadsheet alike. *)
Theorem exported_rows_have_requested_codes_and_real_dates : forall c w p df q,
  In (ToCsv p "utf-8" df) (snd (run c w)) \/ In (ToExcel p df) (snd (run c w)) ->
  In q (body df) ->
  In (currency q) (resolve_moedas (moedas (parse_args c)))
  /\ valid_code (currency q)
  /\ PyDate.valid (date q) = true
  /\ timestamp_ok w (date q) = true
  /\ columns df = COLUMNS.
Proof.
  intros c w p df q Hin Hq.
  destruct (run_writes c w p df Hin)
    as (rows & tr & r & evs & _ & Hrows & Hval & _ & _ & Hexp & Hcsv & Hxls).
  assert (df = build_frame (timestamp_ok w) rows) as ->.
  { destruct Hin as [Hev|Hev]; [apply Hcsv in Hev | apply Hxls in Hev];
      inversion Hexp; subst; cbn in Hev; in_cases Hev; now injection Hev. }
  apply build_frame_rows in Hq as (x & Hx & Hdate & Hok & Hcur & _).
  rewrite List.Forall_forall in Hrows. apply Hrows in Hx. rewrite Hcur in Hx.
  split; [exact Hx|]. split.
  - apply invalidas_nil in Hval. rewrite List.Forall_forall in Hval. now apply Hval.
  - split; [now apply strptime_valid in Hdate|]. now split.
Qed.

Lemma exported_rows_have_requested_codes_and_real_dates_witness :
  In "USD" (resolve_moedas (moedas (parse_args (Argv (Some "usd") None None None false))))
  /\ valid_code "USD"
  /\ PyDate.valid (PyDate.Ymd 2024 1 2) = true
  /\ timestamp_ok (world_of 739000 (fun _ => Json [Item (Some "02/01/2024") (Some "5")]))
                  (PyDate.Ymd 2024 1 2) = true
  /\ columns (build_frame (fun _ => true) [RawRow "02/01/2024" "USD" (PyFloat.of_Z 5)])
     = COLUMNS.
Proof.
  apply (exported_rows_have_requested_codes_and_real_dates
           (Argv (Some "usd") None None None false)
           (world_of 739000 (fun _ => Json [Item (Some "02/01/2024") (Some "5")]))
           "data/cotacoes.csv"
           (build_frame (fun _ => true) [RawRow "02/01/2024" "USD" (PyFloat.of_Z 5)])
           (Quote (PyDate.Ymd 2024 1 2) "USD" (PyFloat.of_Z 5) PyFloat.nan PyFloat.nan)).
  - left. right. right. right. left. reflexivity.
  - left. reflexivity.
Defined.

(** X4. The message of success comes with status 0 and after the CSV
    is written at the output path; the count it gives is the number of
    rows of that file, which is the number of gathered rows whose date
    parses: rows are neither merged nor invented. *)
Theorem reported_count_is_the_rows_with_a_date : forall c w n p,
  In (Print (Ok n p)) (snd (run c w)) ->
  p = out (parse_args c)
  /\ fst (run c w) = inl tt
  /\ exists rows tr,
       collect (parse_args c) w [] = (inl rows, tr)
       /\ In (ToCsv p "utf-8" (build_frame (timestamp_ok w) rows)) (snd (run c w))
       /\ n = length (body (build_frame (timestamp_ok w) rows))
       /\ n = length (List.filter (date_parses (timestamp_ok w)) rows)
       /\ (n <= length rows)%nat.
Proof.
  intros c w n p Hin.
  destruct (run_cases c w)
    as [(_ & H) | [(_ & _ & H) | (Hval & _ & k & _ & [H | (_ & H)])]].
  - rewrite H in Hin. destruct Hin as [Hin|[]]. discriminate.
  - rewrite H in Hin. destruct Hin as [Hin|[]]. discriminate.
  - destruct H as (j & m & ex & _ & _ & H & _). rewrite H in Hin. cbn [snd] in Hin.
    exfalso. destruct Hin as [Hin|Hin]; [discriminate|].
    apply in_map_iff in Hin as (x & Hx & _). discriminate.
  - destruct H as (rows & r & evs & Hc & _ & Hr & Hexp).
    rewrite Hr in *. cbn [fst snd] in *. rewrite app_comm_cons in Hin.
    apply in_app_or in Hin as [Hin|Hin].
    { exfalso. destruct Hin as [Hin|Hin]; [discriminate|].
      apply in_map_iff in Hin as (x & Hx & _). discriminate. }
    assert (p = out (parse_args c) /\ r = inl tt
            /\ n = length (body (build_frame (timestamp_ok w) rows))
            /\ In (ToCsv (out (parse_args c)) "utf-8"
                         (build_frame (timestamp_ok w) rows)) evs)
      as (-> & -> & -> & Hcsv).
    { inversion Hexp; subst; cbn in Hin; in_cases Hin;
        injection Hin as <- <-; repeat split; cbn; auto. }
    split; [reflexivity|]. split; [reflexivity|].
    eexists rows, _. split; [exact Hc|].
    split; [rewrite app_comm_cons; apply in_or_app; now right|].
    split; [reflexivity|]. rewrite build_frame_length. split; [reflexivity|].
    apply List.filter_length_le.
Qed.

Lemma reported_count_is_the_rows_with_a_date_witness :
  "data/cotacoes.csv" = out (parse_args (Argv (Some "usd") None None None false))
  /\ fst (run (Argv (Some "usd") None None None false)
              (world_of 739000
                 (fun _ => Json [Item (Some "02/01/2024") (Some "5");
                                 Item (Some "02/01/2024") (Some "5");
                                 Item (Some "2024-01-03") (Some "6")])))
     = inl tt
  /\ exists rows tr,
       collect (parse_args (Argv (Some "usd") None None None false))
               (world_of 739000
                  (fun _ => Json [Item (Some "02/01/2024") (Some "5");
                                  Item (Some "02/01/2024") (Some "5");
                                  Item (Some "2024-01-03") (Some "6")])) []
       = (inl rows, tr)
       /\ In (ToCsv "data/cotacoes.csv" "utf-8" (build_frame (fun _ => true) rows))
             (snd (run (Argv (Some "usd") None None None false)
                       (world_of 739000
                          (fun _ => Json [Item (Some "02/01/2024") (Some "5");
                                          Item (Some "02/01/2024") (Some "5");
                                          Item (Some "2024-01-03") (Some "6")]))))
       /\ 2%nat = length (body (build_frame (fun _ => true) rows))
       /\ 2%nat = length (List.filter (date_parses (fun _ => true)) rows)
       /\ (2 <= length rows)%nat.
Proof.
  apply (reported_count_is_the_rows_with_a_date
           (Argv (Some "usd") None None None false)
           (world_of 739000
              (fun _ => Json [Item (Some "02/01/2024") (Some "5");
                              Item (Some "02/01/2024") (Some "5");
                              Item (Some "2024-01-03") (Some "6")]))
           2%nat "data/cotacoes.csv").
  right. right. right. right. left. reflexivity.
Defined.

(** X5. A spreadsheet is written only when the flag is set, at the
    path [str.replace] makes of the output path, right after the CSV
    and with the frame of the CSV. *)
Theorem spreadsheet_follows_the_csv : forall c w p df,
  In (ToExcel p df) (snd (run c w)) ->
  opt_excel c = true
  /\ p = xlsx_path (out (parse_args c))
  /\ exists before after,
       snd (run c w)
       = (before ++ ToCsv (out (parse_args c)) "utf-8" df :: ToExcel p df :: after)%list
       /\ List.filter is_write before = [Makedirs (PosixPath.dirname (out (parse_args c)))].
Proof.
  intros c w p df Hin.
  destruct (run_writes c w p df (or_intror Hin))
    as (rows & tr & r & evs & _ & _ & _ & Htr & Hr & Hexp & _ & Hev).
  apply Hev in Hin. clear Hev. rewrite Hr. cbn [snd].
  inversion Hexp as [| | | | | Hrows Hdir Hexcel]; subst; cbn in Hin; in_cases Hin.
  injection Hin as <- <-. split; [exact Hexcel|]. split; [reflexivity|].
  eexists (tr ++ [Makedirs (PosixPath.dirname (out (parse_args c)))])%list, [_].
  split; [now rewrite <- app_assoc|].
  now rewrite List.filter_app, Htr.
Qed.

Lemma spreadsheet_follows_the_csv_witness :
  opt_excel (Argv (Some "usd") None None None true) = true
  /\ "data/cotacoes.xlsx"
     = xlsx_path (out (parse_args (Argv (Some "usd") None None None true)))
  /\ exists before after,
       snd (run (Argv (Some "usd") None None None true)
                (world_of 739000 (fun _ => Json [Item (Some "02/01/2024") (Some "5")])))
       = (before
            ++ ToCsv (out (parse_args (Argv (Some "usd") None None None true))) "utf-8"
                     (build_frame (fun _ => true)
                                  [RawRow "02/01/2024" "USD" (PyFloat.of_Z 5)])
            :: ToExcel "data/cotacoes.xlsx"
                       (build_frame (fun _ => true)
                                    [RawRow "02/01/2024" "USD" (PyFloat.of_Z 5)])
            :: after)%list
       /\ List.filter is_write before
          = [Makedirs (PosixPath.dirname
                         (out (parse_args (Argv (Some "usd") None None None true))))].
Proof.
  apply (spreadsheet_follows_the_csv
           (Argv (Some "usd") None None None true)
           (world_of 739000 (fun _ => Json [Item (Some "02/01/2024") (Some "5")]))).
  right. right. right. right. left. reflexivity.
Defined.



(** X7. Without [--moedas] the four default codes are asked for and
    the run never stops at validation; without [--out] the output goes
    to [data/cotacoes.csv], whose directory part is not empty, so that
    creating it never fails on an empty path; without [--days] and
    [--years] the window spans 730 days. *)
Theorem defaults_are_sound : forall c w,
  (opt_moedas c = None ->
   resolve_moedas (moedas (parse_args c)) = ["USD"; "EUR"; "GBP"; "JPY"]
   /\ fst (run c w) <> inr (SystemExit 1)
   /\ exists evs, snd (run c w) = Today :: evs)
  /\ (opt_out c = None ->
      PosixPath.dirname (out (parse_args c)) = "data"
      /\ xlsx_path (out (parse_args c)) = "data/cotacoes.xlsx"
      /\ fst (run c w) <> inr FileNotFoundError)
  /\ (opt_days c = None -> opt_years c = None -> window_days (parse_args c) = 730).
Proof.
  intros c w. split; [|split].
  - intros Hm.
    assert (resolve_moedas (moedas (parse_args c)) = ["USD"; "EUR"; "GBP"; "JPY"]) as Hres
        by (cbn; now rewrite Hm).
    split; [exact Hres|].
    destruct (run_cases c w)
      as [(Hne & _) | [(_ & _ & H) | (_ & _ & k & _ & [H | (_ & H)])]].
    + exfalso. apply Hne. now rewrite Hres.
    + rewrite H. split; [discriminate | eauto].
    + destruct H as (j & m & ex & _ & _ & H & Hhttp). rewrite H. cbn [fst snd].
      split; [|eauto]. destruct Hhttp as [[_ ->] | [_ ->]]; discriminate.
    + destruct H as (rows & r & evs & _ & _ & H & Hexp). rewrite H. cbn [fst snd].
      split; [|eauto]. inversion Hexp; subst; discriminate.
  - intros Ho.
    assert (out (parse_args c) = "data/cotacoes.csv") as Hout by (cbn; now rewrite Ho).
    rewrite Hout. split; [reflexivity|]. split; [reflexivity|].
    destruct (run_cases c w)
      as [(_ & H) | [(_ & _ & H) | (_ & _ & k & _ & [H | (_ & H)])]].
    + rewrite H. discriminate.
    + rewrite H. discriminate.
    + destruct H as (j & m & ex & _ & _ & H & Hhttp). rewrite H. cbn [fst].
      destruct Hhttp as [[_ ->] | [_ ->]]; discriminate.
    + destruct H as (rows & r & evs & _ & _ & H & Hexp). rewrite H. cbn [fst].
      inversion Hexp as [| Hrows Hdir | | | |]; subst; try discriminate.
      rewrite Hout in Hdir. discriminate.
  - intros Hd Hy. unfold window_days. cbn. now rewrite Hd, Hy.
Qed.

Lemma defaults_are_sound_witness :
  resolve_moedas (moedas (parse_args (Argv None (Some 7) None None true)))
  = ["USD"; "EUR"; "GBP"; "JPY"]
  /\ fst (run (Argv None (Some 7) None None true) (world_of 739000 (fun _ => Failed)))
     <> inr (SystemExit 1)
  /\ exists evs,
       snd (run (Argv None (Some 7) None None true) (world_of 739000 (fun _ => Failed)))
       = Today :: evs.
Proof.
  apply (proj1 (defaults_are_sound (Argv None (Some 7) None None true)
                                   (world_of 739000 (fun _ => Failed)))).
  reflexivity.
Defined.

(* ===================================================================== *)
(** * The directory of the output path *)
(* ===================================================================== *)

Section Dirname.

Lemma head_split p :
  exists base, p = PosixPath.head p +:+ base /\ PosixPath.has_sep base = false.
Proof.
  induction p as [|c p (base & Hp & Hbase)]; [now exists EmptyString|].
  cbn [PosixPath.head]. destruct (PosixPath.has_sep p) eqn:Esep.
  - exists base. rewrite append_cons, <- Hp. auto.
  - destruct (Ascii.eqb_spec c PosixPath.sep) as [->|Hc].
    + exists p. auto.
    + exists (String c p). split; [reflexivity|]. cbn.
      apply Ascii.eqb_neq in Hc. now rewrite Hc, Esep.
Qed.

Lemma rstrip_sep_split s :
  exists seps, s = PosixPath.rstrip_sep s +:+ seps /\ PosixPath.all_sep seps = true.
Proof.
  induction s as [|c s (seps & Hs & Hseps)]; [now exists EmptyString|].
  cbn [PosixPath.rstrip_sep]. destruct (PosixPath.rstrip_sep s) as [|d t] eqn:Er.
  - destruct (Ascii.eqb_spec c PosixPath.sep) as [->|Hc].
    + exists (String PosixPath.sep seps). cbn in *. rewrite Hseps. subst s. auto.
    + exists seps. cbn in *. subst s. auto.
  - exists seps. rewrite append_cons, <- Hs. auto.
Qed.

Lemma rstrip_sep_empty s : PosixPath.rstrip_sep s = EmptyString -> PosixPath.all_sep s = true.
Proof.
  induction s as [|c s IH]; [reflexivity|]. cbn.
  destruct (PosixPath.rstrip_sep s); [|discriminate].
  destruct (Ascii.eqb c PosixPath.sep); [|discriminate]. intros _. now apply IH.
Qed.

Lemma head_with_sep p : PosixPath.has_sep p = true -> PosixPath.head p <> EmptyString.
Proof.
  destruct p as [|c p]; cbn; [discriminate|].
  destruct (PosixPath.has_sep p); [discriminate|].
  rewrite orb_false_r. now intros ->.
Qed.

End Dirname.

(** X8. The directory of a path is a prefix of it: what follows is a
    run of [/] and then a name without [/]. The directory is empty for
    the paths without [/] and for no other, so that [os.makedirs]
    meets the empty path exactly for them. *)
Theorem dirname_splits_the_path : forall p,
  (PosixPath.dirname p = EmptyString <-> PosixPath.has_sep p = false)
  /\ exists seps base,
       p = PosixPath.dirname p +:+ seps +:+ base
       /\ PosixPath.all_sep seps = true
       /\ PosixPath.has_sep base = false.
Proof.
  intros p. split.
  - split; [|apply dirname_bare].
    intros Hd. destruct (PosixPath.has_sep p) eqn:Esep; [|reflexivity].
    exfalso. apply (head_with_sep p Esep).
    unfold PosixPath.dirname in Hd.
    destruct (PosixPath.head p) as [|c h] eqn:Eh; [reflexivity|].
    cbn [PyStr.truthy andb] in Hd.
    destruct (PosixPath.all_sep (String c h)) eqn:Eall; cbn [negb] in Hd;
      [discriminate|].
    apply rstrip_sep_empty in Hd. congruence.
  - destruct (head_split p) as (base & Hp & Hbase).
    unfold PosixPath.dirname.
    destruct (PyStr.truthy (PosixPath.head p) && negb (PosixPath.all_sep (PosixPath.head p))).
    + destruct (rstrip_sep_split (PosixPath.head p)) as (seps & Hh & Hseps).
      exists seps, base. split; [|auto].
      rewrite Hp at 1. rewrite Hh at 1.
      clear. induction (PosixPath.rstrip_sep (PosixPath.head p)) as [|x r IH];
        [reflexivity|]. rewrite !append_cons. now rewrite IH.
    + exists EmptyString, base. auto.
Qed.

(* ===================================================================== *)
(** * What the reader of floats takes *)
(* ===================================================================== *)

Section FloatReader.

Lemma marks_append a b :
  decimal_marks (a +:+ b) = (decimal_marks a + decimal_marks b)%nat.
Proof.
  induction a as [|c a IH]; [reflexivity|]. rewrite append_cons. cbn. rewrite IH. lia.
Qed.

Lemma digit_no_mark c :
  PyFloat.is_digit c = true -> Ascii.eqb c "." || Ascii.eqb c "," = false.
Proof. destruct c as [[] [] [] [] [] [] [] []]; vm_compute; congruence. Qed.

Lemma space_no_mark c :
  PyFloat.c_isspace c = true -> Ascii.eqb c "." || Ascii.eqb c "," = false.
Proof. destruct c as [[] [] [] [] [] [] [] []]; vm_compute; congruence. Qed.

Lemma toupper_mark c :
  Ascii.eqb (PyStr.toupper c) "." || Ascii.eqb (PyStr.toupper c) ","
  = Ascii.eqb c "." || Ascii.eqb c ",".
Proof. destruct c as [[] [] [] [] [] [] [] []]; reflexivity. Qed.

Lemma marks_upper s : decimal_marks (PyStr.upper s) = decimal_marks s.
Proof. induction s as [|c s IH]; [reflexivity|]. cbn. now rewrite toupper_mark, IH. Qed.

Lemma marks_lstrip s : decimal_marks (PyFloat.lstrip s) = decimal_marks s.
Proof.
  induction s as [|c s IH]; [reflexivity|]. cbn.
  destruct (PyFloat.c_isspace c) eqn:E; [|reflexivity].
  now rewrite IH, (space_no_mark c E).
Qed.

Lemma marks_rstrip s : decimal_marks (PyFloat.rstrip s) = decimal_marks s.
Proof.
  induction s as [|c s IH]; [reflexivity|]. cbn.
  destruct (PyFloat.rstrip s) as [|d t] eqn:Er.
  - destruct (PyFloat.c_isspace c) eqn:E; cbn in *.
    + now rewrite <- IH, (space_no_mark c E).
    + now rewrite <- IH.
  - cbn in *. now rewrite IH.
Qed.

Lemma marks_strip_underscores s : forall prev t,
  PyFloat.strip_underscores prev s = Some t -> decimal_marks t = decimal_marks s.
Proof.
  induction s as [|c s IH]; intros prev t; cbn [PyFloat.strip_underscores].
  - destruct prev as [[[] [] [] [] [] [] [] []]|]; intros [= <-]; reflexivity.
  - destruct (Ascii.eqb_spec c "_") as [->|Hc].
    + destruct prev as [p|]; [|discriminate].
      destruct (PyFloat.is_digit p); [|discriminate]. intros H. now apply IH in H.
    + assert (forall o, option_map (String c) o = Some t ->
                        (forall u, o = Some u -> decimal_marks u = decimal_marks s) ->
                        decimal_marks t = decimal_marks (String c s)) as Hstep.
      { intros [u|] [= <-] Hu. cbn. now rewrite (Hu u eq_refl). }
      destruct prev as [[[] [] [] [] [] [] [] []]|];
        try (intros H; apply (Hstep _ H); intros u Hu; now apply IH in Hu).
      destruct (PyFloat.is_digit c); [|discriminate].
      intros H; apply (Hstep _ H); intros u Hu; now apply IH in Hu.
Qed.

Lemma marks_read_sign s :
  decimal_marks (snd (PyFloat.read_sign s)) = decimal_marks s.
Proof.
  destruct s as [|c s]; [reflexivity|].
  destruct c as [[] [] [] [] [] [] [] []]; reflexivity.
Qed.

Lemma marks_read_digits s : forall acc cnt,
  decimal_marks (snd (PyFloat.read_digits s acc cnt)) = decimal_marks s.
Proof.
  induction s as [|c s IH]; intros acc cnt; [reflexivity|].
  cbn [PyFloat.read_digits].
  destruct (PyFloat.digit_of c) as [d|] eqn:E; [|reflexivity].
  rewrite IH. cbn.
  assert (PyFloat.is_digit c = true) as Hc by (unfold PyFloat.is_digit; now rewrite E).
  now rewrite (digit_no_mark c Hc).
Qed.

(** A text that [read_decimal] takes holds one decimal mark at most. *)
Lemma read_decimal_marks s res :
  PyFloat.read_decimal s = Some res -> (decimal_marks s <= 1)%nat.
Proof.
  unfold PyFloat.read_decimal.
  pose proof (marks_read_digits s 0 0) as H1.
  destruct (PyFloat.read_digits s 0 0) as [[n1 c1] r1]. cbn [snd] in H1.
  assert (exists n2 c2 r2 k,
             (k <= 1)%nat /\ decimal_marks r1 = (k + decimal_marks r2)%nat
             /\ match r1 with
                | String "." r => PyFloat.read_digits r n1 0
                | _ => (n1, O, r1)
                end = (n2, c2, r2)) as (n2 & c2 & r2 & k & Hk & H2 & ->).
  { destruct r1 as [|c r].
    - exists n1, O, EmptyString, O. auto.
    - pose proof (marks_read_digits r n1 0) as Hr.
      destruct (PyFloat.read_digits r n1 0) as [[n2 c2] r2] eqn:Erd. cbn [snd] in Hr.
      destruct c as [[] [] [] [] [] [] [] []];
        first [ exists n2, c2, r2, 1%nat; cbn; rewrite Hr;
                split; [lia|]; split; reflexivity
              | eexists _, _, _, O; split; [lia|]; split; [|reflexivity];
                reflexivity ]. }
  destruct (c1 + c2 =? 0)%nat; [discriminate|].
  destruct r2 as [|c r3]; [intros _; cbn [decimal_marks] in H2; lia|].
  destruct (Ascii.eqb c "e" || Ascii.eqb c "E") eqn:Ee; [|discriminate].
  pose proof (marks_read_sign r3) as H3.
  destruct (PyFloat.read_sign r3) as [eneg r4]. cbn [snd] in H3.
  pose proof (marks_read_digits r4 0 0) as H4.
  destruct (PyFloat.read_digits r4 0 0) as [[x c3] r5]. cbn [snd] in H4.
  destruct c3; [discriminate|]. destruct r5; [|discriminate]. intros _.
  cbn in H2, H4.
  assert (Ascii.eqb c "." || Ascii.eqb c "," = false) as Hc
      by (destruct c as [[] [] [] [] [] [] [] []]; vm_compute in Ee |- *; congruence).
  rewrite Hc in H2. lia.
Qed.

(** So does a text that [float] takes. *)
Lemma float_marks s x : PyFloat.float s = Some x -> (decimal_marks s <= 1)%nat.
Proof.
  unfold PyFloat.float.
  destruct (PyFloat.strip_underscores None s) as [t|] eqn:Et; [|discriminate].
  apply marks_strip_underscores in Et. rewrite <- Et.
  rewrite <- (marks_lstrip t), <- (marks_rstrip (PyFloat.lstrip t)).
  rewrite <- (marks_read_sign (PyFloat.rstrip (PyFloat.lstrip t))).
  destruct (PyFloat.read_sign _) as [neg body]. cbn [snd].
  rewrite <- (marks_upper body).
  destruct (String.eqb_spec (PyStr.upper body) "INF") as [->|_]; [cbn; lia|].
  destruct (String.eqb_spec (PyStr.upper body) "INFINITY") as [->|_]; [cbn; lia|].
  cbn [orb].
  destruct (String.eqb_spec (PyStr.upper body) "NAN") as [->|_]; [cbn; lia|].
  destruct (PyFloat.read_decimal body) as [[n k]|] eqn:Er; [|discriminate].
  intros _. rewrite marks_upper. now apply read_decimal_marks in Er.
Qed.

Lemma marks_comma_to_period s : decimal_marks (comma_to_period s) = decimal_marks s.
Proof.
  unfold comma_to_period. induction s as [|c s IH]; [reflexivity|]. cbn. rewrite IH.
  now destruct c as [[] [] [] [] [] [] [] []].
Qed.

End FloatReader.

(** X9. A value with two decimal marks or more, periods and commas
    counted together, is no number for the normaliser: the record is
    dropped. So is a value with a separator of thousands, such as
    ["1.234,56"]. *)
Theorem value_with_two_marks_is_dropped : forall moeda d val rows,
  (2 <= decimal_marks val)%nat ->
  PyFloat.float (PyStr.replace "," "." val) = None
  /\ normalize moeda [Item d (Some val)] rows = rows.
Proof.
  intros moeda d val rows Hmarks.
  assert (PyFloat.float (PyStr.replace "," "." val) = None) as Hnone.
  { destruct (PyFloat.float (PyStr.replace "," "." val)) as [x|] eqn:E; [|reflexivity].
    apply float_marks in E.
    rewrite (replace_char "," "." val) in E.
    change (map_chars _ val) with (comma_to_period val) in E.
    rewrite marks_comma_to_period in E. lia. }
  split; [exact Hnone|].
  unfold normalize. cbn [fold_left]. unfold normalize_item. cbn [data valor].
  destruct d; [|reflexivity]. now rewrite Hnone.
Qed.

Lemma value_with_two_marks_is_dropped_witness :
  PyFloat.float (PyStr.replace "," "." "1.234,56") = None
  /\ normalize "USD" [Item (Some "02/01/2024") (Some "1.234,56")] [] = [].
Proof.
  apply (value_with_two_marks_is_dropped "USD" (Some "02/01/2024") "1.234,56" []).
  cbn. lia.
Defined.

Section FloatAccepts.













End FloatAccepts.

Section NeverNaN.







End NeverNaN.





(* ===================================================================== *)
(** * The dates of the request *)
(* ===================================================================== *)

Section CalendarFacts.

Import Calendar.

(** A property checked on every number of a range holds on the range. *)
Lemma forallb_range (f : Z -> bool) (lo len : Z) :
  forallb f (map (fun k => lo + Z.of_nat k) (seq 0 (Z.to_nat len))) = true ->
  forall z, lo <= z < lo + len -> f z = true.
Proof.
  intros H z Hz. rewrite forallb_forall in H. apply H.
  apply in_map_iff. exists (Z.to_nat (z - lo)). split; [lia|].
  apply in_seq. lia.
Qed.

Lemma month_day_spec leap n :
  0 <= n < 365 ->
  1 <= fst (month_day n leap) <= 12
  /\ 1 <= snd (month_day n leap)
          <= days_in_month_table (fst (month_day n leap))
             + (if (fst (month_day n leap) =? 2) && leap then 1 else 0)
  /\ days_before_month_table (fst (month_day n leap))
     + (if (2 <? fst (month_day n leap)) && leap then 1 else 0)
     + snd (month_day n leap) = n + 1.
Proof.
  intros Hn.
  assert (month_day_ok leap n = true) as H.
  { apply (forallb_range (month_day_ok leap) 0 365); [|lia].
    destruct leap; vm_compute; reflexivity. }
  unfold month_day_ok in H. destruct (month_day n leap) as [m d]. cbn [fst snd].
  rewrite !andb_true_iff in H. destruct H as [[[[H1 H2] H3] H4] H5].
  lia.
Qed.

Lemma days_in_month_table_spec y m :
  PyDate.days_in_month y m
  = days_in_month_table m + (if (m =? 2) && PyDate.is_leap y then 1 else 0).
Proof.
  unfold PyDate.days_in_month.
  destruct (Z.eqb_spec m 2) as [->|H2]; [destruct (PyDate.is_leap y); reflexivity|].
  cbn [andb]. rewrite Z.add_0_r.
  destruct (Z.eqb_spec m 4) as [->|]; [reflexivity|].
  destruct (Z.eqb_spec m 6) as [->|]; [reflexivity|].
  destruct (Z.eqb_spec m 9) as [->|]; [reflexivity|].
  destruct (Z.eqb_spec m 11) as [->|]; [reflexivity|].
  cbn [orb]. unfold days_in_month_table.
  destruct m as [|p|p]; try reflexivity.
  do 4 (destruct p as [p|p|]; try reflexivity; try lia).
Qed.

Lemma days_in_month_december y : PyDate.days_in_month y 12 = 31.
Proof. reflexivity. Qed.

(** The leap years, read off the place of the year in its cycles. *)
Lemma is_leap_cycle a b c d :
  0 <= b <= 3 -> 0 <= c <= 24 -> 0 <= d <= 3 ->
  PyDate.is_leap (a * 400 + 1 + b * 100 + c * 4 + d)
  = (d =? 3) && (negb (c =? 24) || (b =? 3)).
Proof.
  intros Hb Hc Hd. unfold PyDate.is_leap.
  set (y := a * 400 + 1 + b * 100 + c * 4 + d).
  assert (y mod 4 = (d + 1) mod 4) as E4.
  { replace y with ((d + 1) + (a * 100 + b * 25 + c) * 4) by (unfold y; ring).
    apply Z_mod_plus_full. }
  assert (y mod 100 = (c * 4 + d + 1) mod 100) as E100.
  { replace y with ((c * 4 + d + 1) + (a * 4 + b) * 100) by (unfold y; ring).
    apply Z_mod_plus_full. }
  assert (y mod 400 = (b * 100 + c * 4 + d + 1) mod 400) as E400.
  { replace y with ((b * 100 + c * 4 + d + 1) + a * 400) by (unfold y; ring).
    apply Z_mod_plus_full. }
  rewrite E4, E100, E400. clear E4 E100 E400 y.
  destruct (Z.eqb_spec d 3) as [->|Hd3].
  - replace ((3 + 1) mod 4) with 0 by reflexivity. cbn [Z.eqb andb].
    destruct (Z.eqb_spec c 24) as [->|Hc24].
    + replace ((24 * 4 + 3 + 1) mod 100) with 0 by reflexivity.
      cbn [Z.eqb negb andb orb].
      destruct (Z.eqb_spec b 3) as [->|Hb3]; [reflexivity|].
      rewrite Z.mod_small by lia.
      destruct (Z.eqb_spec (b * 100 + 24 * 4 + 3 + 1) 0); [lia|reflexivity].
    + rewrite (Z.mod_small (c * 4 + 3 + 1)) by lia.
      destruct (Z.eqb_spec (c * 4 + 3 + 1) 0); [lia|]. reflexivity.
  - rewrite (Z.mod_small (d + 1)) by lia.
    destruct (Z.eqb_spec (d + 1) 0); [lia|]. cbn [andb orb].
    rewrite Z.mod_small by lia.
    destruct (Z.eqb_spec (b * 100 + c * 4 + d + 1) 0); [lia|reflexivity].
Qed.

(** The days before a year, by the place of the year in its cycles. *)
Lemma days_before_year_cycle a b c d :
  0 <= b <= 3 -> 0 <= c <= 24 -> 0 <= d <= 3 ->
  days_before_year (a * 400 + 1 + b * 100 + c * 4 + d)
  = a * DI400Y + b * DI100Y + c * DI4Y + d * 365.
Proof.
  intros Hb Hc Hd. unfold days_before_year, DI400Y, DI100Y, DI4Y. cbv zeta.
  replace (a * 400 + 1 + b * 100 + c * 4 + d - 1)
    with (a * 400 + b * 100 + c * 4 + d) by ring.
  set (p := a * 400 + b * 100 + c * 4 + d).
  assert (p / 4 = a * 100 + b * 25 + c) as E4.
  { symmetry. apply (Z.div_unique p 4 _ d); unfold p; lia. }
  assert (p / 100 = a * 4 + b) as E100.
  { symmetry. apply (Z.div_unique p 100 _ (c * 4 + d)); unfold p; lia. }
  assert (p / 400 = a) as E400.
  { symmetry. apply (Z.div_unique p 400 _ (b * 100 + c * 4 + d)); unfold p; lia. }
  rewrite E4, E100, E400. unfold p. ring.
Qed.

Lemma cycles_of_spec n :
  let k := cycles_of n in
  n - 1 = c400 k * DI400Y + c100 k * DI100Y + c4 k * DI4Y + c1 k * 365 + crest k
  /\ 0 <= c100 k <= 4 /\ 0 <= c4 k <= 24 /\ 0 <= c1 k <= 4 /\ 0 <= crest k < 365
  /\ (c100 k = 4 -> c4 k = 0 /\ c1 k = 0 /\ crest k = 0)
  /\ (c1 k = 4 -> crest k = 0 /\ c100 k <> 4)
  /\ (c4 k = 24 -> c100 k <> 4 -> c1 k <= 3).
Proof.
  unfold cycles_of, DI400Y, DI100Y, DI4Y. cbv zeta. cbn [c400 c100 c4 c1 crest].
  set (n0 := n - 1).
  pose proof (Z_div_mod_eq_full n0 146097) as E1.
  pose proof (Z.mod_pos_bound n0 146097 ltac:(lia)) as B1.
  set (ra := n0 mod 146097) in *. set (a := n0 / 146097) in *.
  pose proof (Z_div_mod_eq_full ra 36524) as E2.
  pose proof (Z.mod_pos_bound ra 36524 ltac:(lia)) as B2.
  set (rb := ra mod 36524) in *. set (b := ra / 36524) in *.
  pose proof (Z_div_mod_eq_full rb 1461) as E3.
  pose proof (Z.mod_pos_bound rb 1461 ltac:(lia)) as B3.
  set (rc := rb mod 1461) in *. set (c := rb / 1461) in *.
  pose proof (Z_div_mod_eq_full rc 365) as E4.
  pose proof (Z.mod_pos_bound rc 365 ltac:(lia)) as B4.
  set (r := rc mod 365) in *. set (d := rc / 365) in *.
  clearbody ra a rb b rc c r d n0.
  repeat split; lia.
Qed.

Lemma ord2ymd_cycles n :
  let k := cycles_of n in
  ord2ymd n
  = let y := c400 k * 400 + 1 + c100 k * 100 + c4 k * 4 + c1 k in
    if (c1 k =? 4) || (c100 k =? 4) then PyDate.Ymd (y - 1) 12 31
    else
      let leapyear := PyDate.is_leap y in
      PyDate.Ymd y (fst (month_day (crest k) leapyear))
                   (snd (month_day (crest k) leapyear)).
Proof.
  intros k. pose proof (cycles_of_spec n) as H. fold k in H. cbv zeta in H.
  destruct H as (_ & H100 & H4 & H1 & _ & _ & _ & _).
  unfold ord2ymd. cbv zeta. fold (cycles_of n).
  change ((n - 1) / DI400Y) with (c400 k).
  change ((n - 1) mod DI400Y / DI100Y) with (c100 k).
  change (((n - 1) mod DI400Y) mod DI100Y / DI4Y) with (c4 k).
  change ((((n - 1) mod DI400Y) mod DI100Y) mod DI4Y / 365) with (c1 k).
  change ((((n - 1) mod DI400Y) mod DI100Y) mod DI4Y mod 365) with (crest k).
  destruct (Z.eqb_spec (c1 k) 4) as [E1|N1]; [reflexivity|].
  destruct (Z.eqb_spec (c100 k) 4) as [E100|N100]; [reflexivity|].
  cbn [orb]. rewrite is_leap_cycle by lia.
  destruct (month_day _ _); reflexivity.
Qed.

(** [fromordinal] and [toordinal] are inverse on every day from day 1. *)
Lemma ymd2ord_ord2ymd n : ymd2ord (ord2ymd n) = n.
Proof.
  rewrite ord2ymd_cycles. cbv zeta.
  pose proof (cycles_of_spec n) as H. cbv zeta in H.
  set (k := cycles_of n) in *. clearbody k.
  destruct H as (E & H100 & H4 & H1 & Hr & L100 & L1 & L4).
  unfold ymd2ord, days_before_month.
  destruct (Z.eqb_spec (c1 k) 4) as [E1|N1].
  - cbn [orb PyDate.year PyDate.month PyDate.day].
    destruct (L1 E1) as [Er N100].
    replace (c400 k * 400 + 1 + c100 k * 100 + c4 k * 4 + c1 k - 1)
      with (c400 k * 400 + 1 + c100 k * 100 + c4 k * 4 + 3) by lia.
    assert (c4 k <= 23) as H23.
    { destruct (Z.eq_dec (c4 k) 24) as [E24|]; [|lia]. specialize (L4 E24 N100). lia. }
    rewrite is_leap_cycle, days_before_year_cycle by lia.
    replace (3 =? 3) with true by reflexivity.
    destruct (Z.eqb_spec (c4 k) 24); [lia|].
    cbn. unfold DI400Y, DI100Y, DI4Y in *. lia.
  - destruct (Z.eqb_spec (c100 k) 4) as [E100|N100].
    + cbn [orb PyDate.year PyDate.month PyDate.day].
      destruct (L100 E100) as (E4 & E1 & Er).
      replace (c400 k * 400 + 1 + c100 k * 100 + c4 k * 4 + c1 k - 1)
        with (c400 k * 400 + 1 + 3 * 100 + 24 * 4 + 3) by lia.
      rewrite is_leap_cycle, days_before_year_cycle by lia.
      cbn. unfold DI400Y, DI100Y, DI4Y in *. lia.
    + cbn [orb PyDate.year PyDate.month PyDate.day].
      rewrite days_before_year_cycle by lia.
      pose proof (month_day_spec
                    (PyDate.is_leap (c400 k * 400 + 1 + c100 k * 100 + c4 k * 4 + c1 k))
                    (crest k) Hr) as (_ & _ & Hm).
      unfold DI400Y, DI100Y, DI4Y in *. lia.
Qed.

(** [fromordinal] gives a date of the calendar, on the days that
    [date] has. *)
Lemma ord2ymd_valid n :
  PyDate.MINORD <= n <= PyDate.MAXORD -> PyDate.valid (ord2ymd n) = true.
Proof.
  unfold PyDate.MINORD, PyDate.MAXORD. intros Hn.
  rewrite ord2ymd_cycles. cbv zeta.
  pose proof (cycles_of_spec n) as H. cbv zeta in H.
  set (k := cycles_of n) in *. clearbody k.
  destruct H as (E & H100 & H4 & H1 & Hr & L100 & L1 & L4).
  unfold DI400Y, DI100Y, DI4Y in *.
  assert (0 <= c400 k) as H400 by lia.
  unfold PyDate.valid.
  destruct (Z.eqb_spec (c1 k) 4) as [E1|N1].
  - cbn [orb PyDate.year PyDate.month PyDate.day].
    destruct (L1 E1) as [Er N100].
    assert (c4 k <= 23) as H23.
    { destruct (Z.eq_dec (c4 k) 24) as [E24|]; [|lia]. specialize (L4 E24 N100). lia. }
    rewrite days_in_month_december.
    rewrite !andb_true_iff. repeat split; lia.
  - destruct (Z.eqb_spec (c100 k) 4) as [E100|N100].
    + cbn [orb PyDate.year PyDate.month PyDate.day].
      destruct (L100 E100) as (E4 & E1 & Er).
      rewrite days_in_month_december.
      rewrite !andb_true_iff. repeat split; lia.
    + cbn [orb PyDate.year PyDate.month PyDate.day].
      rewrite days_in_month_table_spec.
      pose proof (month_day_spec
                    (PyDate.is_leap (c400 k * 400 + 1 + c100 k * 100 + c4 k * 4 + c1 k))
                    (crest k) Hr) as (Hm & Hd & _).
      assert (c4 k = 24 -> c1 k <= 3) by (intros; apply L4; assumption).
      rewrite !andb_true_iff. repeat split; lia.
Qed.

(** From the first day of year 1000 on, the year has four digits. *)
Lemma ord2ymd_year n :
  ORD_Y1000 <= n -> 1000 <= PyDate.year (ord2ymd n).
Proof.
  unfold ORD_Y1000. intros Hn.
  rewrite ord2ymd_cycles. cbv zeta.
  pose proof (cycles_of_spec n) as H. cbv zeta in H.
  set (k := cycles_of n) in *. clearbody k.
  destruct H as (E & H100 & H4 & H1 & Hr & L100 & L1 & L4).
  unfold DI400Y, DI100Y, DI4Y in *.
  destruct (Z.eqb_spec (c1 k) 4) as [E1|N1];
    [|destruct (Z.eqb_spec (c100 k) 4) as [E100|N100]];
    cbn [orb PyDate.year]; lia.
Qed.

End CalendarFacts.

Section RequestText.

Import Calendar.

Lemma read_field_two two a b r :
  PyFloat.is_digit b = true ->
  PyDate.read_field two (String a (String b (String "/" r)))
  = option_map (fun v => (v, r)) (two a b).
Proof.
  intros H.
  destruct b as [[] [] [] [] [] [] [] []];
    try (vm_compute in H; discriminate H); reflexivity.
Qed.

Lemma two_digits_read two n rest :
  two_digits_ok two n = true ->
  PyDate.read_field two (two_digits n +:+ "/" +:+ rest) = Some (n, rest).
Proof.
  unfold two_digits_ok, two_digits. intros H.
  apply andb_true_iff in H as [Hb H].
  rewrite !append_cons, append_nil_l, read_field_two by exact Hb.
  destruct (two _ _) as [v|]; [|discriminate].
  apply Z.eqb_eq in H. now subst v.
Qed.

Lemma day_read d rest :
  1 <= d <= 31 ->
  PyDate.read_field PyDate.day_of_two (two_digits d +:+ "/" +:+ rest) = Some (d, rest).
Proof.
  intros H. apply two_digits_read.
  apply (forallb_range (two_digits_ok PyDate.day_of_two) 1 31); [|lia].
  vm_compute. reflexivity.
Qed.

Lemma month_read m rest :
  1 <= m <= 12 ->
  PyDate.read_field PyDate.month_of_two (two_digits m +:+ "/" +:+ rest) = Some (m, rest).
Proof.
  intros H. apply two_digits_read.
  apply (forallb_range (two_digits_ok PyDate.month_of_two) 1 12); [|lia].
  vm_compute. reflexivity.
Qed.

Lemma year_read y :
  1000 <= y <= 9999 ->
  PyDate.read_year (str_of_int y) = Some y
  /\ String.length (str_of_int y) = 4%nat.
Proof.
  intros H.
  assert (year_ok y = true) as Hy.
  { apply (forallb_range year_ok 1000 9000); [|lia]. vm_compute. reflexivity. }
  unfold year_ok in Hy. destruct (PyDate.read_year _) as [v|]; [|discriminate].
  apply andb_true_iff in Hy as [Hv Hl].
  apply Z.eqb_eq in Hv. apply Nat.eqb_eq in Hl. now subst v.
Qed.

Lemma valid_bounds d :
  PyDate.valid d = true ->
  1 <= PyDate.year d <= 9999 /\ 1 <= PyDate.month d <= 12 /\ 1 <= PyDate.day d <= 31.
Proof.
  unfold PyDate.valid. rewrite !andb_true_iff.
  intros [[[[[H1 H2] H3] H4] H5] H6].
  assert (PyDate.days_in_month (PyDate.year d) (PyDate.month d) <= 31).
  { unfold PyDate.days_in_month.
    repeat match goal with |- context [if ?b then _ else _] => destruct b end; lia. }
  lia.
Qed.

(** A date of the years 1000 to 9999 printed by [%d/%m/%Y] is read
    back by the same format. *)
Lemma strptime_strftime d :
  PyDate.valid d = true -> 1000 <= PyDate.year d ->
  PyDate.strptime_dmy (strftime_dmy d) = Some d.
Proof.
  intros Hv Hy. destruct (valid_bounds d Hv) as (Hyr & Hm & Hd).
  unfold PyDate.strptime_dmy, strftime_dmy.
  rewrite day_read, month_read by lia.
  destruct (year_read (PyDate.year d)) as [-> _]; [lia|].
  cbv zeta. destruct d as [y m dd]. cbn [PyDate.year PyDate.month PyDate.day] in *.
  now rewrite Hv.
Qed.

Lemma length_append a b :
  String.length (a +:+ b) = (String.length a + String.length b)%nat.
Proof.
  induction a as [|c a IH]; [reflexivity|].
  rewrite append_cons. cbn [String.length]. now rewrite IH.
Qed.

Lemma strftime_length d :
  PyDate.valid d = true -> 1000 <= PyDate.year d ->
  String.length (strftime_dmy d) = 10%nat.
Proof.
  intros Hv Hy. destruct (valid_bounds d Hv) as (Hyr & _ & _).
  unfold strftime_dmy. rewrite !length_append.
  destruct (year_read (PyDate.year d)) as [_ ->]; [lia|]. reflexivity.
Qed.

Lemma append_inj_l a x y : a +:+ x = a +:+ y -> x = y.
Proof.
  induction a as [|c a IH]; [now rewrite !append_nil_l|].
  rewrite !append_cons. intros H. injection H as H. now apply IH.
Qed.

Lemma append_inj_r t x : forall y, x +:+ t = y +:+ t -> x = y.
Proof.
  induction x as [|c x IH]; intros [|c' y] H.
  - reflexivity.
  - apply (f_equal String.length) in H. rewrite append_nil_l, length_append in H.
    cbn [String.length] in H. lia.
  - apply (f_equal String.length) in H. rewrite append_nil_l, length_append in H.
    cbn [String.length] in H. lia.
  - rewrite !append_cons in H. injection H as -> H. f_equal. now apply IH.
Qed.

Lemma str_of_int_inj a b : str_of_int a = str_of_int b -> a = b.
Proof.
  unfold str_of_int. intros H.
  apply (f_equal NilEmpty.int_of_string) in H. rewrite !NilEmpty.isi in H.
  injection H as H. apply (f_equal Z.of_int) in H.
  now rewrite !DecimalZ.of_to in H.
Qed.

Lemma url_of_inj a b : url_of a = url_of b -> a = b.
Proof.
  unfold url_of. intros H.
  apply append_inj_l, append_inj_r in H. now apply str_of_int_inj.
Qed.

Lemma ddmmyyyy_read n :
  ORD_Y1000 <= n <= PyDate.MAXORD ->
  PyDate.strptime_dmy (ddmmyyyy n) = Some (ord2ymd n).
Proof.
  intros H. apply strptime_strftime.
  - apply ord2ymd_valid. unfold ORD_Y1000, PyDate.MINORD in *. lia.
  - apply ord2ymd_year. lia.
Qed.

Lemma ddmmyyyy_inj n n' :
  ORD_Y1000 <= n <= PyDate.MAXORD -> ORD_Y1000 <= n' <= PyDate.MAXORD ->
  ddmmyyyy n = ddmmyyyy n' -> n = n'.
Proof.
  intros Hn Hn' H. apply (f_equal PyDate.strptime_dmy) in H.
  rewrite !ddmmyyyy_read in H by assumption. injection H as H.
  rewrite <- (ymd2ord_ord2ymd n), <- (ymd2ord_ord2ymd n'). now rewrite H.
Qed.

End RequestText.

(** X11. The text that [ddmmyyyy] sends for a day of the years 1000 to
    9999 has ten characters, is read back by the format [%d/%m/%Y] as
    the calendar date of that day, which exists and has that day as its
    ordinal, and two days never share a text. *)
Theorem window_bound_text_reads_back : forall n,
  ORD_Y1000 <= n <= PyDate.MAXORD ->
  String.length (ddmmyyyy n) = 10%nat
  /\ PyDate.strptime_dmy (ddmmyyyy n) = Some (Calendar.ord2ymd n)
  /\ PyDate.valid (Calendar.ord2ymd n) = true
  /\ Calendar.ymd2ord (Calendar.ord2ymd n) = n
  /\ (forall n', ORD_Y1000 <= n' <= PyDate.MAXORD ->
                 ddmmyyyy n = ddmmyyyy n' -> n = n').
Proof.
  intros n Hn.
  assert (PyDate.valid (Calendar.ord2ymd n) = true) as Hv.
  { apply ord2ymd_valid. unfold ORD_Y1000, PyDate.MINORD in *. lia. }
  split; [|split; [|split; [|split]]].
  - apply strftime_length; [exact Hv|]. apply ord2ymd_year. lia.
  - now apply ddmmyyyy_read.
  - exact Hv.
  - apply ymd2ord_ord2ymd.
  - intros n' Hn'. now apply ddmmyyyy_inj.
Qed.

Lemma window_bound_text_reads_back_witness :
  ORD_Y1000 <= 738886 <= PyDate.MAXORD
  /\ ddmmyyyy 738886 = "01/01/2024"
  /\ PyDate.strptime_dmy (ddmmyyyy 738886) = Some (PyDate.Ymd 2024 1 1).
Proof.
  split; [vm_compute; split; discriminate|].
  split; [reflexivity|].
  exact (proj1 (proj2 (window_bound_text_reads_back 738886
                         ltac:(vm_compute; split; discriminate)))).
Defined.

Lemma request_of_inj c s e c' s' e' :
  ORD_Y1000 <= s <= PyDate.MAXORD -> ORD_Y1000 <= e <= PyDate.MAXORD ->
  ORD_Y1000 <= s' <= PyDate.MAXORD -> ORD_Y1000 <= e' <= PyDate.MAXORD ->
  request_of (Get c s e) = request_of (Get c' s' e') ->
  c = c' /\ s = s' /\ e = e'.
Proof.
  intros Hs He Hs' He' H.
  cbn [request_of] in H. unfold params_of in H.
  assert (url_of c = url_of c') as Hu by congruence.
  assert (ddmmyyyy s = ddmmyyyy s') as Hstart by congruence.
  assert (ddmmyyyy e = ddmmyyyy e') as Hend by congruence.
  apply url_of_inj in Hu. apply ddmmyyyy_inj in Hstart, Hend; auto.
Qed.

Lemma series_codes_differ m m' :
  dict_mem SGS_SERIES m = true -> dict_mem SGS_SERIES m' = true ->
  default 0 (dict_get SGS_SERIES m) = default 0 (dict_get SGS_SERIES m') ->
  m = m'.
Proof.
  intros Hm Hm' H. apply dict_mem_keys in Hm, Hm'.
  cbn in Hm, Hm'.
  repeat (destruct Hm as [Hm|Hm]; [subst m|]); try contradiction;
    repeat (destruct Hm' as [Hm'|Hm']; [subst m'|]); try contradiction;
    try reflexivity; vm_compute in H; discriminate H.
Qed.

(** X12. The request tells the currency and the window: when the
    requests for two currencies of [SGS_SERIES] have the same URL and
    the same query, over days of the years 1000 to 9999, the currencies
    are the same and so are the two days of the window. *)
Theorem request_tells_currency_and_window : forall m s e m' s' e',
  dict_mem SGS_SERIES m = true -> dict_mem SGS_SERIES m' = true ->
  ORD_Y1000 <= s <= PyDate.MAXORD -> ORD_Y1000 <= e <= PyDate.MAXORD ->
  ORD_Y1000 <= s' <= PyDate.MAXORD -> ORD_Y1000 <= e' <= PyDate.MAXORD ->
  request_of (get_of s e m) = request_of (get_of s' e' m') ->
  m = m' /\ s = s' /\ e = e'.
Proof.
  intros m s e m' s' e' Hm Hm' Hs He Hs' He' H.
  unfold get_of in H. apply request_of_inj in H; try assumption.
  destruct H as (Hc & -> & ->).
  split; [|split; reflexivity]. now apply series_codes_differ.
Qed.

Lemma request_tells_currency_and_window_witness :
  request_of (get_of 738856 738886 "USD")
  = Some ("https://api.bcb.gov.br/dados/serie/bcdata.sgs.10813/dados",
          [("formato", "json"); ("dataInicial", "02/12/2023");
           ("dataFinal", "01/01/2024")])
  /\ ("USD" = "USD" /\ 738856 = 738856 /\ 738886 = 738886).
Proof.
  split; [reflexivity|].
  apply (request_tells_currency_and_window "USD" 738856 738886 "USD" 738856 738886);
    try reflexivity; vm_compute; split; discriminate.
Defined.

(* ===================================================================== *)
(** * The embedding at work *)
(* ===================================================================== *)

Example float_reads_decimals :
  PyFloat.float "0.1" = Some (S754_finite false 7205759403792794 (-56))
  /\ PyFloat.float " 1_0.5e1 " = Some (PyFloat.of_Z 105)
  /\ PyFloat.float ".5" = PyFloat.float "5e-1"
  /\ PyFloat.float "-0" = Some (S754_zero true)
  /\ PyFloat.float "1e400" = Some (S754_infinity false)
  /\ PyFloat.float "2.5e-324" = Some (S754_finite false 1 (-1074))
  /\ PyFloat.float "2.4e-324" = Some (S754_zero false)
  /\ PyFloat.float "-Infinity" = Some (S754_infinity true)
  /\ PyFloat.float "NaN" = Some S754_nan.
Proof. repeat split; vm_compute; reflexivity. Qed.

(** Rounding is to nearest, ties to even: [2^53 + 1] goes down to
    [2^53] and [2^53 + 3] up to [2^53 + 4]; [1 + 2^-53] goes down to 1
    and anything above it up; past the largest double by more than
    half a unit in the last place is infinity. *)
Example float_rounds_ties_to_even :
  PyFloat.float "9007199254740993" = Some (S754_finite false 4503599627370496 1)
  /\ PyFloat.float "9007199254740995" = Some (S754_finite false 4503599627370498 1)
  /\ PyFloat.float "1.00000000000000011102230246251565404236316680908203125"
     = Some (S754_finite false 4503599627370496 (-52))
  /\ PyFloat.float "1.00000000000000011102230246251565404236316680908203126"
     = Some (S754_finite false 4503599627370497 (-52))
  /\ PyFloat.float "1.7976931348623157e308"
     = Some (S754_finite false 9007199254740991 971)
  /\ PyFloat.float "1.7976931348623159e308" = Some (S754_infinity false).
Proof. repeat split; vm_compute; reflexivity. Qed.

Example float_rejects :
  map PyFloat.float [""; "."; "1e"; "e5"; "1__0"; "_1"; "1_"; "0x10"; "1 2"; "+-1"; "1,5"]
  = [None; None; None; None; None; None; None; None; None; None; None].
Proof. reflexivity. Qed.

Example strptime_reads_dates :
  map PyDate.strptime_dmy ["02/01/2024"; "2/1/2024"; "29/02/2024"]
  = [Some (PyDate.Ymd 2024 1 2); Some (PyDate.Ymd 2024 1 2); Some (PyDate.Ymd 2024 2 29)]
  /\ map PyDate.strptime_dmy
         ["2024-01-02"; "29/02/2023"; "31/04/2024"; "01/13/2024"; "01/01/0000";
          "01/01/24"; "01/01/2024 "; ""]
     = [None; None; None; None; None; None; None; None].
Proof. split; reflexivity. Qed.

Example dirname_examples :
  map PosixPath.dirname ["data/cotacoes.csv"; "cotacoes.csv"; "/x.csv"; "a//b"; "///"; "a/b/"]
  = ["data"; ""; "/"; "a"; "///"; "a/b"].
Proof. reflexivity. Qed.

Example replace_examples :
  PyStr.replace "," "." "1,234,5" = "1.234.5"
  /\ PyStr.replace ".csv" ".xlsx" "data/cotacoes.csv" = "data/cotacoes.xlsx"
  /\ PyStr.replace "aa" "b" "aaaaa" = "bba".
Proof. repeat split. Qed.

(** Two currencies fetched in turn: the frame is grouped by currency and
    ordered by date, and only the second row of each group has a
    previous value. *)
Example run_two_currencies :
  run (Argv (Some "usd,eur") (Some 7) None None false)
      (world_of 739000
         (fun cod =>
            if cod =? 10813
            then Json [Item (Some "03/01/2024") (Some "4,9");
                       Item (Some "02/01/2024") (Some "4,8");
                       Item (Some "04/01/2024") None]
            else Json [Item (Some "02/01/2024") (Some "5,3");
                       Item (Some "03/01/2024") (Some "n/d")]))
  = (inl tt,
     [Today; Get 10813 738993 739000; Get 21619 738993 739000;
      Makedirs "data";
      ToCsv "data/cotacoes.csv" "utf-8"
        (Frame COLUMNS
           [Quote (PyDate.Ymd 2024 1 2) "EUR"
                  (S754_finite false 5967269506265907 (-50)) S754_nan S754_nan;
            Quote (PyDate.Ymd 2024 1 2) "USD"
                  (S754_finite false 5404319552844595 (-50)) S754_nan S754_nan;
            Quote (PyDate.Ymd 2024 1 3) "USD"
                  (S754_finite false 5516909543528858 (-50))
                  (S754_finite false 5404319552844595 (-50))
                  (S754_finite false 4691249611844300 (-51))]);
      Print (Ok 3 "data/cotacoes.csv")]).
Proof. vm_compute. reflexivity. Qed.
